(** * Legal-Document-Analyzer: provider routing, fallback and degradation

    Shallow embedding of the two API-integration modules of the repository:
    - [Cls]: the class [LegalDocumentAPIs] of [src/api-integrations.js];
    - [Obj]: the object [legalAPIs] of [src/unnamed/part_001], together with the
      [API_CONFIG] / [setAPIKeys] of [src/setup-api-keys.js] it reads.

    Network effects are modelled by a response oracle [net : Req -> Response]
    and a writer/exception monad [M]: a computation returns either a value or a
    thrown JS error, together with the list of requests it sent, in order. *)

From Stdlib Require Import String Ascii List ZArith Bool Lia DecimalString.
Import ListNotations.
Open Scope list_scope.
Open Scope string_scope.
Set Warnings "-register-all,-abstract-large-number".

(** ** JavaScript values (the JSON payloads plus [undefined] and functions) *)

(** Numbers are kept as integers: no statement below depends on fractional
    values. *)
Inductive jsval : Type :=
| JUndef
| JNull
| JBool (b : bool)
| JNum (n : Z)
| JStr (s : string)
| JArr (items : list jsval)
| JObj (fields : list (string * jsval))
| JFun (source : string).  (* a function; [source] is what [String(f)] prints *)

(** JS truthiness. *)
Definition truthy (v : jsval) : bool :=
  match v with
  | JUndef | JNull => false
  | JBool b => b
  | JNum n => negb (Z.eqb n 0)
  | JStr s => negb (String.eqb s "")
  | JArr _ | JObj _ | JFun _ => true
  end.

(** Truthiness of a configured credential string ([if (this.config.x.apiKey)]). *)
Definition str_truthy (s : string) : bool := negb (String.eqb s "").

(** [a || b] on JS values. *)
Definition js_or (a b : jsval) : jsval := if truthy a then a else b.

Definition is_nullish (v : jsval) : bool :=
  match v with JUndef | JNull => true | _ => false end.

Fixpoint assoc_lookup (k : string) (fs : list (string * jsval)) : jsval :=
  match fs with
  | [] => JUndef
  | (k', v) :: rest => if String.eqb k k' then v else assoc_lookup k rest
  end.

(** ** Thrown errors and the computation monad *)

Inductive js_error : Type :=
| TypeError            (* property read on undefined / null, or call of a non-function *)
| NetworkError         (* [fetch] rejected: transport failure, timeout *)
| HttpError            (* [!response.ok] *)
| ParseError           (* [response.json()] rejected *)
| UnknownService.      (* [_callAIService] default branch *)

Inductive Result (A : Type) : Type :=
| Ok (a : A)
| Throw (e : js_error).
Arguments Ok {A} a.
Arguments Throw {A} e.

(** The services a request is sent to.  The request envelope (headers, model
    ids, token budget, system message) is fixed per endpoint and per module and
    determined by the payload text [rq_text]. *)
Inductive Endpoint : Type :=
| OpenAIChat
| GeminiGenerate
| AnthropicMessages
| HuggingFaceModel (model : string)
| MyMemoryGet (sourceLang targetLang : string)
| NaturalLanguageAnalyze.

Record Req : Type := mkReq { rq_endpoint : Endpoint; rq_text : string }.

Definition Endpoint_eq_dec (a b : Endpoint) : {a = b} + {a <> b}.
Proof. decide equality; apply string_dec. Defined.

Definition Req_eq_dec (a b : Req) : {a = b} + {a <> b}.
Proof. decide equality; [apply string_dec | apply Endpoint_eq_dec]. Defined.

(** What [fetch] yields: a rejection, or a response with its [ok] flag and
    its body ([None] when [response.json()] rejects). *)
Inductive Response : Type :=
| NetErr
| Http (ok : bool) (body : option jsval).

(** Writer/exception monad: result and the requests sent. *)
Definition M (A : Type) : Type := (Result A * list Req)%type.

Definition ret {A} (a : A) : M A := (Ok a, []).
Definition throw {A} (e : js_error) : M A := (Throw e, []).

Definition bind {A B} (m : M A) (f : A -> M B) : M B :=
  match m with
  | (Ok a, t1) => let (r, t2) := f a in (r, app t1 t2)
  | (Throw e, t1) => (Throw e, t1)
  end.

(** [try { m } catch (e) { h e }] *)
Definition catch {A} (m : M A) (h : js_error -> M A) : M A :=
  match m with
  | (Throw e, t1) => let (r, t2) := h e in (r, app t1 t2)
  | ok => ok
  end.

Notation "'let*' x := m 'in' k" := (bind m (fun x => k))
  (at level 200, x name, m at level 100, k at level 200).

Definition lift {A} (r : Result A) : M A := (r, []).

(** A computation that sends no request. *)
Definition silent {A} (m : M A) : Prop := snd m = [].

(** A computation that ends by throwing. *)
Definition throws {A} (m : M A) : Prop := exists e, fst m = Throw e.

(** Property read [v.k] on a named (non built-in) property. *)
Definition get (v : jsval) (k : string) : M jsval :=
  match v with
  | JUndef | JNull => throw TypeError
  | JObj fs => ret (assoc_lookup k fs)
  | _ => ret JUndef
  end.

(** Index read [v[n]]: an array element, a string's [n]-th character, or an
    object's property named by the decimal digits of [n]. *)
Definition idx (v : jsval) (n : nat) : M jsval :=
  match v with
  | JUndef | JNull => throw TypeError
  | JArr l => ret (nth n l JUndef)
  | JStr s => ret (match String.get n s with Some c => JStr (String c EmptyString) | None => JUndef end)
  | JObj fs => ret (assoc_lookup (NilZero.string_of_uint (Nat.to_uint n)) fs)
  | _ => ret JUndef
  end.

Section Net.
Variable net : Req -> Response.

(** [fetch] followed by the [ok] check and [response.json()], rethrowing on
    failure: [makeAPICall(url, options)] with the default [fallbackResponse = null]
    (class module), and the inline [fetch] of each adapter of the object module. *)
Definition makeAPICall (r : Req) : M jsval :=
  match net r with
  | NetErr => (Throw NetworkError, [r])
  | Http false _ => (Throw HttpError, [r])
  | Http true None => (Throw ParseError, [r])
  | Http true (Some j) => (Ok j, [r])
  end.

End Net.

(** The same network with every request to endpoint [e] failing in transport. *)
Definition endpoint_down (e : Endpoint) (net : Req -> Response) (r : Req) : Response :=
  if Endpoint_eq_dec (rq_endpoint r) e then NetErr else net r.

(** ** String helpers *)

(** Strings are byte strings: [substring] counts bytes, which agrees with the
    UTF-16 code units of JS's [substring] on ASCII text. *)

Definition nl : string := String (ascii_of_nat 10) EmptyString.
Definition dq : string := String (ascii_of_nat 34) EmptyString.

(** Lines of a multi-line template literal, joined by newlines. *)
Definition lines (ls : list string) : string := String.concat nl ls.

Fixpoint str_lookup (k : string) (tbl : list (string * string)) : option string :=
  match tbl with
  | [] => None
  | (k', v) :: rest => if String.eqb k k' then Some v else str_lookup k rest
  end.

(** [${v}] / [String(v)]. *)
Fixpoint js_to_string (v : jsval) : string :=
  match v with
  | JUndef => "undefined"
  | JNull => "null"
  | JBool true => "true"
  | JBool false => "false"
  | JNum n => NilZero.string_of_int (Z.to_int n)
  | JStr s => s
  | JArr l => String.concat "," (map (fun x => if is_nullish x then "" else js_to_string x) l)
  | JObj _ => "[object Object]"
  | JFun src => src
  end.

(** The names an object literal inherits from [Object.prototype]. *)
Definition object_prototype_methods : list string :=
  ["toString"; "toLocaleString"; "valueOf"; "hasOwnProperty"; "isPrototypeOf";
   "propertyIsEnumerable"; "__defineGetter__"; "__defineSetter__";
   "__lookupGetter__"; "__lookupSetter__"].

Definition proto_key (k : string) : bool :=
  existsb (String.eqb k) ("constructor" :: "__proto__" :: object_prototype_methods).

(** A built-in function, as [String(f)] prints it in V8. *)
Definition native_fn (name : string) : jsval :=
  JFun ("function " ++ name ++ "() { [native code] }").

(** [o[k]] for a key [k] that is not an own property of the object literal [o]:
    [constructor] is [Object], [__proto__] is [Object.prototype] (an object
    printing as [object Object]), the methods are native functions. *)
Definition proto_prop (k : string) : jsval :=
  if String.eqb k "constructor" then native_fn "Object"
  else if String.eqb k "__proto__" then JObj []
  else if existsb (String.eqb k) object_prototype_methods then native_fn k
  else JUndef.

(** [tbl[k]] on an object literal whose own properties are the strings [tbl]. *)
Definition prop_lookup (k : string) (tbl : list (string * string)) : jsval :=
  match str_lookup k tbl with
  | Some s => JStr s
  | None => proto_prop k
  end.

(** [v === 'lit'] *)
Definition js_eq_str (v : jsval) (s : string) : bool :=
  match v with JStr s' => String.eqb s' s | _ => false end.

(** * The class [LegalDocumentAPIs] (src/api-integrations.js) *)
Module Cls.

(** [this.config]: only the credentials are relevant; base URLs are constants. *)
Record Config : Type := mkConfig {
  openai_apiKey : string;
  huggingface_apiKey : string;
  gemini_apiKey : string
}.

(** [if (key) { try { return await adapter } catch (e) { log } }  rest] *)
Definition try_provider {A} (key_set : bool) (adapter : M A) (rest : M A) : M A :=
  if key_set then catch adapter (fun _ => rest) else rest.

Definition prompts (text : string) : list (string * string) :=
  [("comprehensive", "Provide a comprehensive summary of this Indian legal document. Focus on key legal points, parties involved, main arguments, and legal implications:" ++ nl ++ nl ++ text);
   ("executive", "Provide an executive summary of this legal document suitable for senior management. Focus on business impact and key decisions:" ++ nl ++ nl ++ text);
   ("key-points", "Extract the key points from this legal document in bullet format:" ++ nl ++ nl ++ text);
   ("timeline", "Create a timeline of important dates and events from this legal document:" ++ nl ++ nl ++ text)].

Definition lengthInstructions : list (string * string) :=
  [("short", "Keep the summary concise (2-3 paragraphs)");
   ("medium", "Provide a moderate length summary (4-6 paragraphs)");
   ("long", "Provide a detailed summary (8-10 paragraphs)")].

(** [`${prompts[summaryType]} ${lengthInstructions[length]}`] *)
Definition summaryPrompt (text summaryType length : string) : string :=
  js_to_string (prop_lookup summaryType (prompts text)) ++ " "
  ++ js_to_string (prop_lookup length lengthInstructions).

Definition mockSummaries : list (string * string) :=
  [("comprehensive", "This legal document appears to be a comprehensive contract or agreement. Based on the structure and content, it contains standard legal provisions including terms, conditions, and obligations of the parties involved. The document follows Indian legal formatting and includes relevant statutory references.");
   ("executive", "Executive Summary: This document represents a significant legal agreement requiring immediate attention. Key business impacts include contractual obligations, financial implications, and regulatory compliance requirements.");
   ("key-points", lines ["• Document Type: Legal Contract"; "• Parties: Multiple entities involved"; "• Key Terms: Standard contractual provisions"; "• Obligations: Mutual responsibilities outlined"; "• Compliance: Follows Indian legal standards"]);
   ("timeline", lines ["Timeline of Events:"; "• Document Creation: [Date to be extracted]"; "• Effective Date: [Date to be extracted]"; "• Key Milestones: [To be identified]"; "• Expiration: [Date to be extracted]"])].

(** [mockSummaries[type] || mockSummaries.comprehensive] *)
Definition getMockSummary (type_ : string) : jsval :=
  js_or (prop_lookup type_ mockSummaries) (prop_lookup "comprehensive" mockSummaries).

Definition getMockLegalAnswer (question : string) : string :=
  lines ["Thank you for your legal question: " ++ dq ++ question ++ dq ++ ". ";
         "";
         "This is a mock response. For accurate legal advice, please consult with a qualified legal professional familiar with Indian law. ";
         "";
         "Based on general legal principles in India:";
         "- Legal matters require careful analysis of specific circumstances";
         "- Indian legal system is based on common law with statutory modifications";
         "- Always verify current legal status and recent amendments";
         "- Consider consulting relevant legal precedents and case law";
         "";
         "Please note: This is not legal advice and should not be relied upon for legal decisions."].

Definition getMockTranslation (text sourceLang targetLang : string) : string :=
  "[Translation from " ++ sourceLang ++ " to " ++ targetLang ++ "]: " ++ text
  ++ " [This is a mock translation. Please use a proper translation service for accurate results.]".

Definition entities_obj (persons organizations locations dates legal_refs : list jsval) : jsval :=
  JObj [("persons", JArr persons); ("organizations", JArr organizations);
        ("locations", JArr locations); ("dates", JArr dates); ("legal_refs", JArr legal_refs)].

Definition getMockEntities : jsval :=
  entities_obj [JStr "John Doe"; JStr "Jane Smith"] [JStr "ABC Corporation"; JStr "XYZ Ltd."]
               [JStr "Mumbai"; JStr "New Delhi"] [JStr "2023-01-15"; JStr "2023-12-31"]
               [JStr "Indian Contract Act 1872"; JStr "Companies Act 2013"].

Definition getMockSearchResults (query : string) : string :=
  lines ["Search results for " ++ dq ++ query ++ dq ++ ":";
         "";
         "1. **Relevant Section Found** (Confidence: 8/10)";
         "   - Located in paragraph 3, section 2.1";
         "   - Context: Contains related legal provisions";
         "";
         "2. **Key Match** (Confidence: 6/10)";
         "   - Found in clause 4(a)";
         "   - Related to contractual obligations";
         "";
         "3. **Legal Concept** (Confidence: 7/10)";
         "   - Connects to Indian Contract Act provisions";
         "   - Relevant case law references available";
         "";
         "This is a mock search result. Actual implementation would provide more detailed analysis."].

Definition legalQuestionPrompt (question documentContext : string) : string :=
  lines ["You are an expert in Indian law. Answer this legal question professionally and accurately:";
         "";
         "Question: " ++ question;
         "";
         (if str_truthy documentContext then "Context from document: " ++ documentContext else "");
         "";
         "Please provide a comprehensive answer covering:";
         "1. Relevant Indian laws and acts";
         "2. Legal precedents if applicable";
         "3. Practical implications";
         "4. Recommended next steps"].

Definition searchPrompt (query documentText : string) : string :=
  lines ["Perform semantic search on this legal document for the query: " ++ dq ++ query ++ dq;
         "";
         "Document: " ++ documentText;
         "";
         "Please find and return:";
         "1. Most relevant sections";
         "2. Key matches and their context";
         "3. Related legal concepts";
         "4. Confidence score (1-10)"].

Definition NER_MODEL : string := "dbmdz/bert-large-cased-finetuned-conll03-english".

(** The [response.forEach(entity => ...)] loop of [processEntityResponse]. *)
Fixpoint forEach_entity (es : list jsval)
    (persons organizations locations dates legal_refs : list jsval) : M jsval :=
  match es with
  | [] => ret (entities_obj persons organizations locations dates legal_refs)
  | entity :: rest =>
      let* text := get entity "word" in
      let* label := get entity "entity_group" in
      if js_eq_str label "PER" then
        forEach_entity rest (app persons [text]) organizations locations dates legal_refs
      else if js_eq_str label "ORG" then
        forEach_entity rest persons (app organizations [text]) locations dates legal_refs
      else if js_eq_str label "LOC" then
        forEach_entity rest persons organizations (app locations [text]) dates legal_refs
      else if js_eq_str label "MISC" then
        forEach_entity rest persons organizations locations dates (app legal_refs [text])
      else forEach_entity rest persons organizations locations dates legal_refs
  end.

(** Only an array has a [forEach] method: any other payload throws. *)
Definition processEntityResponse (response : jsval) : M jsval :=
  match response with
  | JArr es => forEach_entity es [] [] [] [] []
  | _ => throw TypeError
  end.

Definition getAvailableAPIs (cfg : Config) : list string :=
  app (if str_truthy (openai_apiKey cfg) then ["OpenAI"] else [])
    (app (if str_truthy (gemini_apiKey cfg) then ["Gemini"] else [])
       (if str_truthy (huggingface_apiKey cfg) then ["Hugging Face"] else [])).

(** [isConfigured()]: [openai.apiKey || gemini.apiKey || huggingface.apiKey]. *)
Definition isConfigured (cfg : Config) : string :=
  if str_truthy (openai_apiKey cfg) then openai_apiKey cfg
  else if str_truthy (gemini_apiKey cfg) then gemini_apiKey cfg
  else huggingface_apiKey cfg.

Section Net.
Variable net : Req -> Response.

(** [response.choices[0].message.content] *)
Definition summarizeWithOpenAI (prompt : string) : M jsval :=
  let* response := makeAPICall net (mkReq OpenAIChat prompt) in
  let* choices := get response "choices" in
  let* c0 := idx choices 0 in
  let* message := get c0 "message" in
  get message "content".

(** [response.candidates[0].content.parts[0].text] *)
Definition summarizeWithGemini (prompt : string) : M jsval :=
  let* response := makeAPICall net (mkReq GeminiGenerate prompt) in
  let* candidates := get response "candidates" in
  let* c0 := idx candidates 0 in
  let* content := get c0 "content" in
  let* parts := get content "parts" in
  let* p0 := idx parts 0 in
  get p0 "text".

Definition summarizeDocument (cfg : Config) (text summaryType length : string) : M jsval :=
  let prompt := summaryPrompt text summaryType length in
  try_provider (str_truthy (openai_apiKey cfg)) (summarizeWithOpenAI prompt)
    (try_provider (str_truthy (gemini_apiKey cfg)) (summarizeWithGemini prompt)
       (ret (getMockSummary summaryType))).

Definition askLegalQuestion (cfg : Config) (question documentContext : string) : M jsval :=
  let prompt := legalQuestionPrompt question documentContext in
  try_provider (str_truthy (openai_apiKey cfg)) (summarizeWithOpenAI prompt)
    (try_provider (str_truthy (gemini_apiKey cfg)) (summarizeWithGemini prompt)
       (ret (JStr (getMockLegalAnswer question)))).

(** [this.config] is in scope but not read: the MyMemory call is always made. *)
(** The [try] block of [translateText]: the MyMemory call and
    [response.responseData.translatedText]. *)
Definition myMemory_translate (text sourceLang targetLang : string) : M jsval :=
  let* response := makeAPICall net (mkReq (MyMemoryGet sourceLang targetLang) text) in
  let* responseData := get response "responseData" in
  get responseData "translatedText".

Definition translateText (cfg : Config) (text sourceLang targetLang : string) : M jsval :=
  catch (myMemory_translate text sourceLang targetLang)
    (fun _ => ret (JStr (getMockTranslation text sourceLang targetLang))).

Definition extractEntities (cfg : Config) (text : string) : M jsval :=
  try_provider (str_truthy (huggingface_apiKey cfg))
    (let* response := makeAPICall net (mkReq (HuggingFaceModel NER_MODEL) text) in
     processEntityResponse response)
    (ret getMockEntities).

(** One [try] around both provider branches; [None] is falling out of the
    [try] block without a [return]. *)
Definition performSemanticSearch (cfg : Config) (query documentText : string) : M jsval :=
  let prompt := searchPrompt query documentText in
  let* found :=
    catch
      (if str_truthy (openai_apiKey cfg) then
         let* r := summarizeWithOpenAI prompt in ret (Some r)
       else if str_truthy (gemini_apiKey cfg) then
         let* r := summarizeWithGemini prompt in ret (Some r)
       else ret None)
      (fun _ => ret None) in
  match found with
  | Some r => ret r
  | None => ret (JStr (getMockSearchResults query))
  end.

(** [testAPIConnection()]: the fields of [results] in insertion order. *)
Definition testAPIConnection (cfg : Config) : M jsval :=
  let* r1 :=
    if str_truthy (openai_apiKey cfg) then
      catch (let* _ := summarizeWithOpenAI "Test prompt" in ret [("openai", JStr "Connected")])
            (fun _ => ret [("openai", JStr "Failed")])
    else ret [] in
  let* r2 :=
    if str_truthy (gemini_apiKey cfg) then
      catch (let* _ := summarizeWithGemini "Test prompt" in ret [("gemini", JStr "Connected")])
            (fun _ => ret [("gemini", JStr "Failed")])
    else ret [] in
  ret (JObj (app r1 r2)).

End Net.
End Cls.

(** ** JS array helpers *)

(** [arr.join(sep)]: [undefined] and [null] elements print as the empty string. *)
Definition js_join (sep : string) (l : list jsval) : string :=
  String.concat sep (map (fun x => if is_nullish x then "" else js_to_string x) l).

(** [arr.map(f)] with an [f] that may throw. *)
Fixpoint map_M (f : jsval -> M jsval) (l : list jsval) : M (list jsval) :=
  match l with
  | [] => ret []
  | x :: rest => let* y := f x in let* ys := map_M f rest in ret (y :: ys)
  end.

(** * The object [legalAPIs] (src/unnamed/part_001) and its configuration
      [API_CONFIG] / [setAPIKeys] (src/setup-api-keys.js) *)
Module Obj.

(** The credential fields of [API_CONFIG]. *)
Record ApiConfig : Type := mkApiConfig {
  OPENAI_API_KEY : string;
  GEMINI_API_KEY : string;
  GOOGLE_TRANSLATE_API_KEY : string;
  GOOGLE_DOCUMENT_AI_API_KEY : string;
  GOOGLE_DOCUMENT_AI_PROJECT_ID : string;
  GOOGLE_NATURAL_LANGUAGE_API_KEY : string;
  ANTHROPIC_API_KEY : string;
  HUGGINGFACE_API_KEY : string
}.

(** [legalAPIs.availableServices] *)
Record AvailableServices : Type := mkAvailableServices {
  ai : list string;
  nlp : bool;
  documentAI : bool;
  translation : bool
}.

(** The process-wide state: the configuration and the services snapshot. *)
Record State : Type := mkState {
  API_CONFIG : ApiConfig;
  availableServices : AvailableServices
}.

(** The body of [initializeServices], computed from the configuration. *)
Definition services_of (c : ApiConfig) : AvailableServices :=
  mkAvailableServices
    (app (if str_truthy (OPENAI_API_KEY c) then ["openai"] else [])
      (app (if str_truthy (GEMINI_API_KEY c) then ["gemini"] else [])
        (app (if str_truthy (ANTHROPIC_API_KEY c) then ["anthropic"] else [])
             (if str_truthy (HUGGINGFACE_API_KEY c) then ["huggingface"] else []))))
    (str_truthy (GOOGLE_NATURAL_LANGUAGE_API_KEY c))
    (str_truthy (GOOGLE_DOCUMENT_AI_API_KEY c))
    (str_truthy (GOOGLE_TRANSLATE_API_KEY c)).

(** [initializeServices()]: overwrites the snapshot and returns it. *)
Definition initializeServices (st : State) : State * AvailableServices :=
  let av := services_of (API_CONFIG st) in (mkState (API_CONFIG st) av, av).

(** The argument of [setAPIKeys(keys)]; an absent key is the empty string. *)
Record Keys : Type := mkKeys {
  k_openai : string;
  k_gemini : string;
  k_googleTranslate : string;
  k_googleDocumentAI : string;
  k_googleNaturalLanguage : string;
  k_anthropic : string;
  k_huggingface : string;
  k_googleProjectId : string
}.

Definition set_if (k old : string) : string := if str_truthy k then k else old.

(** [setAPIKeys(keys)] on [API_CONFIG]; its [localStorage] mirror and the
    logging of [validateAPIKeys()] do not touch [legalAPIs]. *)
Definition setAPIKeys (keys : Keys) (st : State) : State :=
  let c := API_CONFIG st in
  mkState
    (mkApiConfig (set_if (k_openai keys) (OPENAI_API_KEY c))
                 (set_if (k_gemini keys) (GEMINI_API_KEY c))
                 (set_if (k_googleTranslate keys) (GOOGLE_TRANSLATE_API_KEY c))
                 (set_if (k_googleDocumentAI keys) (GOOGLE_DOCUMENT_AI_API_KEY c))
                 (set_if (k_googleProjectId keys) (GOOGLE_DOCUMENT_AI_PROJECT_ID c))
                 (set_if (k_googleNaturalLanguage keys) (GOOGLE_NATURAL_LANGUAGE_API_KEY c))
                 (set_if (k_anthropic keys) (ANTHROPIC_API_KEY c))
                 (set_if (k_huggingface keys) (HUGGINGFACE_API_KEY c)))
    (availableServices st).

(** [validateAPIKeys()] (src/setup-api-keys.js): its result; the messages it
    logs are not modelled. *)
Definition validateAPIKeys (c : ApiConfig) : bool :=
  let availableAI :=
    app (if str_truthy (OPENAI_API_KEY c) then ["OpenAI"] else [])
      (app (if str_truthy (GEMINI_API_KEY c) then ["Gemini"] else [])
        (app (if str_truthy (ANTHROPIC_API_KEY c) then ["Anthropic"] else [])
             (if str_truthy (HUGGINGFACE_API_KEY c) then ["Hugging Face"] else []))) in
  let missingKeys :=
    app (if Nat.eqb (length availableAI) 0
         then ["At least one AI service (OpenAI, Gemini, Anthropic, or Hugging Face)"] else [])
        (if negb (str_truthy (GOOGLE_TRANSLATE_API_KEY c))
         then ["Google Translate API key (for translation)"] else []) in
  if Nat.ltb 0 (length missingKeys) then false else true.

(** The value [setAPIKeys(keys)] returns: [validateAPIKeys()] on the updated
    configuration. *)
Definition setAPIKeys_return (keys : Keys) (st : State) : bool :=
  validateAPIKeys (API_CONFIG (setAPIKeys keys st)).

(** What [loadAPIKeys()] reads: whether [require] exists, whether
    [require('dotenv').config()] succeeds, [process.env] after it, whether
    [window] exists, and [localStorage.getItem]; an absent entry reads as the
    empty string, which [||] treats like [undefined] and [null]. *)
Record Env : Type := mkEnv {
  has_require : bool;
  dotenv_loads : bool;
  process_env : string -> string;
  has_window : bool;
  local_storage : string -> string
}.

(** The assignments of [loadAPIKeys()] to [API_CONFIG]: first the Node.js
    branch (skipped when [require('dotenv')] throws), then the browser branch. *)
Definition loadAPIKeys_config (env : Env) (c : ApiConfig) : ApiConfig :=
  let c1 :=
    if has_require env && dotenv_loads env then
      let e := process_env env in
      mkApiConfig (set_if (e "OPENAI_API_KEY") (OPENAI_API_KEY c))
                  (set_if (e "GEMINI_API_KEY") (GEMINI_API_KEY c))
                  (set_if (e "GOOGLE_TRANSLATE_API_KEY") (GOOGLE_TRANSLATE_API_KEY c))
                  (set_if (e "GOOGLE_DOCUMENT_AI_API_KEY") (GOOGLE_DOCUMENT_AI_API_KEY c))
                  (set_if (e "GOOGLE_PROJECT_ID") (GOOGLE_DOCUMENT_AI_PROJECT_ID c))
                  (set_if (e "GOOGLE_NATURAL_LANGUAGE_API_KEY") (GOOGLE_NATURAL_LANGUAGE_API_KEY c))
                  (set_if (e "ANTHROPIC_API_KEY") (ANTHROPIC_API_KEY c))
                  (set_if (e "HUGGINGFACE_API_KEY") (HUGGINGFACE_API_KEY c))
    else c in
  if has_window env then
    let ls := local_storage env in
    mkApiConfig (set_if (ls "OPENAI_API_KEY") (OPENAI_API_KEY c1))
                (set_if (ls "GEMINI_API_KEY") (GEMINI_API_KEY c1))
                (set_if (ls "GOOGLE_TRANSLATE_API_KEY") (GOOGLE_TRANSLATE_API_KEY c1))
                (set_if (ls "GOOGLE_DOCUMENT_AI_API_KEY") (GOOGLE_DOCUMENT_AI_API_KEY c1))
                (GOOGLE_DOCUMENT_AI_PROJECT_ID c1)
                (set_if (ls "GOOGLE_NATURAL_LANGUAGE_API_KEY") (GOOGLE_NATURAL_LANGUAGE_API_KEY c1))
                (set_if (ls "ANTHROPIC_API_KEY") (ANTHROPIC_API_KEY c1))
                (set_if (ls "HUGGINGFACE_API_KEY") (HUGGINGFACE_API_KEY c1))
  else c1.

(** [loadAPIKeys()]: the new state and the returned [validateAPIKeys()]. *)
Definition loadAPIKeys (env : Env) (st : State) : State * bool :=
  let c := loadAPIKeys_config env (API_CONFIG st) in
  (mkState c (availableServices st), validateAPIKeys c).

(** [AI_STRATEGY.BACKUP_AI] *)
Definition BACKUP_AI : list string := ["gemini"; "openai"; "anthropic"; "huggingface"].

Definition preferences : list (string * list string) :=
  [("legal_qa", ["gemini"; "openai"; "anthropic"; "huggingface"]);
   ("summarization", ["openai"; "gemini"; "anthropic"; "huggingface"]);
   ("search", ["gemini"; "openai"; "anthropic"]);
   ("comparison", ["openai"; "gemini"; "anthropic"]);
   ("risk_analysis", ["gemini"; "openai"; "anthropic"])].

Fixpoint pref_lookup (k : string) (tbl : list (string * list string)) : option (list string) :=
  match tbl with
  | [] => None
  | (k', v) :: rest => if String.eqb k k' then Some v else pref_lookup k rest
  end.

(** [arr.includes(x)] *)
Definition includes (l : list string) (x : string) : bool :=
  existsb (String.eqb x) l.

(** [_selectBestAI(taskType)]; [None] is [null].  Every caller passes one of
    the five keys of [preferences].  For a name inherited from
    [Object.prototype] ([proto_key]), [preferences[taskType]] is a function or
    an object that is not iterable and the [for ... of] throws a TypeError,
    which this option-valued embedding does not represent: statements about an
    arbitrary task type assume [proto_key taskType = false]. *)
Definition _selectBestAI (av : AvailableServices) (taskType : string) : option string :=
  let taskPreferences :=
    match pref_lookup taskType preferences with Some l => l | None => ai av end in
  match find (includes (ai av)) taskPreferences with
  | Some a => Some a
  | None => hd_error (ai av)
  end.

Definition LEGAL_MODEL : string := "nlpaueb/legal-bert-base-uncased".
Definition SUMMARIZATION_MODEL : string := "facebook/bart-large-cnn".

Definition _buildLegalPrompt (question context : string) : string :=
  lines ["As an expert in Indian law, please provide a comprehensive answer to this legal question:";
         "";
         "Question: " ++ question;
         "";
         "Context: " ++ context;
         "";
         "Please include:";
         "1. Relevant Indian laws and sections";
         "2. Legal precedents if applicable";
         "3. Practical implications";
         "4. Step-by-step guidance";
         "5. Important deadlines or procedures";
         "";
         "Response:"].

Definition _getFallbackLegalResponse (question : string) : string :=
  lines ["**Legal Question: " ++ dq ++ question ++ dq ++ "**";
         "";
         "⚠️ *This is a demonstration response. Configure your AI services for full functionality.*";
         "";
         "For comprehensive legal advice on this question, I recommend:";
         "";
         "**Relevant Indian Legal Framework:**";
         "- The Indian Constitution (Fundamental Rights & DPSP)";
         "- Indian Contract Act, 1872";
         "- Indian Penal Code, 1860";
         "- Code of Civil Procedure, 1908";
         "- Indian Evidence Act, 1872";
         "";
         "**Recommended Actions:**";
         "1. Consult with a qualified legal practitioner";
         "2. Review relevant case law on legal databases";
         "3. Check for recent amendments to applicable acts";
         "4. Consider jurisdiction-specific variations";
         "";
         "**Legal Resources:**";
         "- Supreme Court of India judgments";
         "- High Court decisions";
         "- Legal databases (Manupatra, SCC Online)";
         "- Bar Council of India guidelines";
         "";
         "*For personalized legal advice, please consult with a licensed attorney.*"].

Definition _getFallbackSummary (summaryType summaryLength : string) : string :=
  lines ["**Enhanced Document Summary (" ++ summaryType ++ " - " ++ summaryLength ++ ")**";
         "";
         "⚠️ *This is a demonstration summary. Configure your AI services for intelligent analysis.*";
         "";
         "**Multi-AI Analysis Available:**";
         "With proper API configuration, this system provides:";
         "";
         "✅ **Document Structure Analysis** (Google Document AI)";
         "- OCR and text extraction";
         "- Layout understanding";
         "- Form field detection";
         "";
         "✅ **Natural Language Processing** (Google Natural Language)";
         "- Entity extraction";
         "- Sentiment analysis";
         "- Content classification";
         "";
         "✅ **AI-Powered Summarization** (OpenAI/Gemini/Anthropic)";
         "- Legal-specific insights";
         "- Multi-perspective analysis";
         "- Risk assessment";
         "";
         "✅ **Specialized Legal Models** (Hugging Face)";
         "- Legal entity recognition";
         "- Contract analysis";
         "- Clause extraction";
         "";
         "**Setup Required:**";
         "Configure your API keys to unlock all AI-powered features for comprehensive legal document analysis."].

Definition _getFallbackSearchResults (query : string) : string :=
  lines ["**Multi-AI Semantic Search Results for: " ++ dq ++ query ++ dq ++ "**";
         "";
         "⚠️ *Configure your AI services for comprehensive search capabilities.*";
         "";
         "**Enhanced Search Features Available:**";
         "🔍 **Google Natural Language API** - Entity and sentiment analysis";
         "🤖 **Multiple AI Models** - OpenAI, Gemini, Anthropic, Hugging Face";
         "📄 **Document AI** - Structure and content understanding";
         "⚖️ **Legal Specialization** - Indian law expertise";
         "";
         "**Sample Legal Database Results:**";
         "1. **Indian Contract Act, 1872** - Sections related to your query";
         "2. **Indian Penal Code, 1860** - Criminal law provisions";
         "3. **Constitution of India** - Fundamental rights and duties";
         "4. **Recent Case Law** - Supreme Court and High Court decisions";
         "";
         "**Setup Instructions:**";
         "Configure your API keys to unlock intelligent semantic search across multiple AI platforms for comprehensive legal research."].

(** [AI_STRATEGY.USE_SPECIALIZED_MODELS] *)
Definition USE_SPECIALIZED_MODELS : bool := true.

Definition typeInstructions : list (string * string) :=
  [("comprehensive", "Provide a comprehensive summary covering all key aspects");
   ("executive", "Focus on executive-level insights and key decisions");
   ("keypoints", "Extract and list the most important key points");
   ("timeline", "Present events and decisions in chronological order")].

Definition lengthInstructions : list (string * string) :=
  [("short", "in 2-3 concise paragraphs");
   ("medium", "in 4-6 detailed paragraphs");
   ("long", "in a comprehensive analysis with multiple sections")].

Definition _buildSummarizationPrompt (text type_ length nlpAnalysis : string) : string :=
  lines ["You are an expert legal document analyst specializing in Indian law. ";
         "        Please analyze the following legal document and provide a " ++ type_
           ++ " summary " ++ js_to_string (prop_lookup length lengthInstructions) ++ ".";
         "";
         "        " ++ js_to_string (prop_lookup type_ typeInstructions);
         "";
         "        " ++ (if str_truthy nlpAnalysis then "NLP Analysis Insights: " ++ nlpAnalysis else "");
         "";
         "        Document to analyze:";
         "        " ++ substring 0 4000 text ++ "...";
         "";
         "        Please structure your summary with:";
         "        1. Document Type and Overview";
         "        2. Key Legal Issues";
         "        3. Important Parties Involved";
         "        4. Critical Dates and Deadlines";
         "        5. Legal Implications";
         "        6. Actionable Items (if any)";
         "";
         "        Summary:"].

Definition _buildSearchPrompt (query documentText : string) : string :=
  lines ["You are an AI legal research assistant specializing in Indian law. ";
         "        Based on the following document content, please perform a semantic search for: "
           ++ dq ++ query ++ dq;
         "";
         "        Document content:";
         "        " ++ substring 0 3000 documentText ++ "...";
         "";
         "        Please provide:";
         "        1. Relevant sections that match the search query";
         "        2. Legal concepts and terms related to the query";
         "        3. Any applicable Indian laws or acts mentioned";
         "        4. Case law references if any";
         "        5. Practical implications";
         "        6. Related legal concepts to explore";
         "";
         "        Search Results:"].

(** The [prompt] of [compareDocuments]. *)
Definition comparison_prompt (doc1Text doc2Text : string) : string :=
  lines ["As a legal AI expert, compare these two documents and provide:";
         "            1. Key differences";
         "            2. Similar clauses";
         "            3. Legal implications of differences";
         "            4. Recommendations";
         "";
         "            Document 1:";
         "            " ++ substring 0 2000 doc1Text ++ "...";
         "";
         "            Document 2:";
         "            " ++ substring 0 2000 doc2Text ++ "...";
         "";
         "            Analysis:"].

(** The [riskPrompt] of [assessLegalRisk]. *)
Definition risk_prompt (documentText : string) : string :=
  lines ["As a legal risk analyst specializing in Indian law, assess the legal risks in this document:";
         "";
         "            " ++ substring 0 3000 documentText ++ "...";
         "";
         "            Provide:";
         "            1. Risk level (Low/Medium/High)";
         "            2. Specific risk factors";
         "            3. Legal compliance issues";
         "            4. Mitigation recommendations";
         "            5. Relevant Indian laws/acts";
         "";
         "            Assessment:"].

(** [_combineSearchResults(results, query)], each result given by its [source]
    and [results] fields. *)
Definition _combineSearchResults (results : list (jsval * jsval)) (query : string) : string :=
  match results with
  | [] => _getFallbackSearchResults query
  | _ =>
      let combined := "**Enhanced Semantic Search Results for: " ++ dq ++ query ++ dq ++ "**" ++ nl ++ nl in
      let combined :=
        fold_left (fun combined result =>
                     combined ++ "### " ++ js_to_string (fst result) ++ " Analysis" ++ nl
                              ++ js_to_string (snd result) ++ nl ++ nl)
                  results combined in
      combined ++ nl ++ "**Multi-AI Analysis Complete** ✅" ++ nl
               ++ "Used " ++ js_to_string (JNum (Z.of_nat (length results)))
               ++ " AI service(s) for comprehensive analysis."
  end.

(** [null] or the service name, as a JS value. *)
Definition service_value (aiService : option string) : jsval :=
  match aiService with Some s => JStr s | None => JNull end.

(** The result [_analyzeWithNaturalLanguage] returns from its [catch]. *)
Definition nl_failure_result : jsval :=
  JObj [("entities", JArr []); ("sentiment", JObj [("score", JNum 0)])].

Section Net.
Variable net : Req -> Response.

Definition _callOpenAI (prompt : string) : M jsval :=
  let* data := makeAPICall net (mkReq OpenAIChat prompt) in
  let* choices := get data "choices" in
  let* c0 := idx choices 0 in
  let* message := get c0 "message" in
  get message "content".

Definition _callGemini (prompt : string) : M jsval :=
  let* data := makeAPICall net (mkReq GeminiGenerate prompt) in
  let* candidates := get data "candidates" in
  let* c0 := idx candidates 0 in
  let* content := get c0 "content" in
  let* parts := get content "parts" in
  let* p0 := idx parts 0 in
  get p0 "text".

Definition _callAnthropic (prompt : string) : M jsval :=
  let* data := makeAPICall net (mkReq AnthropicMessages prompt) in
  let* content := get data "content" in
  let* c0 := idx content 0 in
  get c0 "text".

Definition _callHuggingFace (prompt taskType : string) : M jsval :=
  let model := if String.eqb taskType "summarization" then SUMMARIZATION_MODEL else LEGAL_MODEL in
  let* data := makeAPICall net (mkReq (HuggingFaceModel model) prompt) in
  let* d := match data with JArr _ => idx data 0 | _ => ret data end in
  let* g := get d "generated_text" in
  if truthy g then ret g else get d "summary_text".

Definition _callAIService (service : option string) (prompt taskType : string) : M jsval :=
  match service with
  | Some s =>
      if String.eqb s "openai" then _callOpenAI prompt
      else if String.eqb s "gemini" then _callGemini prompt
      else if String.eqb s "anthropic" then _callAnthropic prompt
      else if String.eqb s "huggingface" then _callHuggingFace prompt taskType
      else throw UnknownService
  | None => throw UnknownService
  end.

(** The [try] block of [_analyzeWithNaturalLanguage]. *)
Definition nl_body (text : string) : M jsval :=
  let* data := makeAPICall net (mkReq NaturalLanguageAnalyze (substring 0 10000 text)) in
  let* entities := get data "entities" in
  let* sentiment := get data "documentSentiment" in
  let* tokens := get data "tokens" in
  let* categories := get data "categories" in
  ret (JObj [("entities", js_or entities (JArr []));
             ("sentiment", js_or sentiment (JObj [("score", JNum 0)]));
             ("syntax", js_or tokens (JArr []));
             ("classification", js_or categories (JArr []))]).

Definition _analyzeWithNaturalLanguage (text : string) : M jsval :=
  catch (nl_body text) (fun _ => ret nl_failure_result).

(** [nlpAnalysis.entities?.map(e => e.name).join(', ') || 'None detected'] *)
Definition entities_text (nlpAnalysis : jsval) : M string :=
  let* ents := get nlpAnalysis "entities" in
  let* joined :=
    if is_nullish ents then ret JUndef
    else match ents with
         | JArr es => let* names := map_M (fun e => get e "name") es in
                      ret (JStr (js_join ", " names))
         | _ => throw TypeError
         end in
  ret (js_to_string (js_or joined (JStr "None detected"))).

(** [nlpAnalysis.sentiment?.score || 'neutral'] *)
Definition sentiment_text (nlpAnalysis : jsval) : M string :=
  let* sentiment := get nlpAnalysis "sentiment" in
  let* score := if is_nullish sentiment then ret JUndef else get sentiment "score" in
  ret (js_to_string (js_or score (JStr "neutral"))).

(** The context enrichment step of [askLegalQuestion]. *)
Definition enhance_context (av : AvailableServices) (documentContext : string) : M string :=
  if nlp av && str_truthy documentContext then
    let* nlpAnalysis := _analyzeWithNaturalLanguage (substring 0 1000 documentContext) in
    let* e := entities_text nlpAnalysis in
    let* s := sentiment_text nlpAnalysis in
    ret (documentContext ++ nl ++ nl ++ "Key entities: " ++ e ++ nl ++ "Document sentiment: " ++ s)
  else ret documentContext.

(** The [for (const backupAI of AI_STRATEGY.BACKUP_AI)] loop. *)
Fixpoint backup_loop (av : AvailableServices) (aiService : option string) (prompt taskType : string)
    (backups : list string) (response : jsval) : M jsval :=
  match backups with
  | [] => ret response
  | b :: rest =>
      if includes (ai av) b && negb (match aiService with Some s => String.eqb b s | None => false end)
      then
        let* r := catch (let* v := _callAIService (Some b) prompt taskType in ret (Some v))
                        (fun _ => ret None) in
        match r with
        | Some v => if truthy v then ret v else backup_loop av aiService prompt taskType rest v
        | None => backup_loop av aiService prompt taskType rest response
        end
      else backup_loop av aiService prompt taskType rest response
  end.

(** The statements of [askLegalQuestion] after the enrichment step. *)
Definition answer_with_context (av : AvailableServices) (aiService : option string)
    (question enhancedContext : string) : M jsval :=
  let prompt := _buildLegalPrompt question enhancedContext in
  let* response := _callAIService aiService prompt "legal_qa" in
  let* response :=
    if negb (truthy response) && Nat.ltb 1 (length (ai av))
    then backup_loop av aiService prompt "legal_qa" BACKUP_AI response
    else ret response in
  ret (js_or response (JStr (_getFallbackLegalResponse question))).

Definition askLegalQuestion (av : AvailableServices) (question documentContext : string) : M jsval :=
  catch
    (let aiService := _selectBestAI av "legal_qa" in
     let* enhancedContext := enhance_context av documentContext in
     answer_with_context av aiService question enhancedContext)
    (fun _ => ret (JStr (_getFallbackLegalResponse question))).


(** [_summarizeWithHuggingFace], [_searchWithNaturalLanguage] and
    [_searchLegalEntities] are stubs that send nothing. *)
Definition _summarizeWithHuggingFace (text type_ : string) : M jsval := ret JNull.
Definition _searchWithNaturalLanguage (query text : string) : M jsval := ret (JStr "").
Definition _searchLegalEntities (query text : string) : M jsval := ret (JStr "").

Definition compareDocuments (av : AvailableServices) (doc1Text doc2Text : string) : M jsval :=
  catch
    (let aiService := _selectBestAI av "comparison" in
     let prompt := comparison_prompt doc1Text doc2Text in
     _callAIService aiService prompt "comparison")
    (fun _ => ret (JStr "Document comparison failed. Please configure AI services.")).

Definition performSemanticSearch (av : AvailableServices) (query documentText : string) : M jsval :=
  catch
    (let* searchResults :=
       if nlp av then
         let* nlpResult := _searchWithNaturalLanguage query documentText in
         ret [(JStr "Google Natural Language", nlpResult)]
       else ret [] in
     let aiService := _selectBestAI av "search" in
     let searchPrompt := _buildSearchPrompt query documentText in
     let* aiSearchResult := _callAIService aiService searchPrompt "search" in
     let searchResults :=
       if truthy aiSearchResult
       then app searchResults [(service_value aiService, aiSearchResult)]
       else searchResults in
     let* searchResults :=
       if includes (ai av) "huggingface" then
         let* entitySearch := _searchLegalEntities query documentText in
         ret (if truthy entitySearch
              then app searchResults [(JStr "Legal Entity Search", entitySearch)]
              else searchResults)
       else ret searchResults in
     ret (JStr (_combineSearchResults searchResults query)))
    (fun _ => ret (JStr (_getFallbackSearchResults query))).

End Net.

(** [new Date().toISOString()] and [error.message] come from the runtime. *)
Section Risk.
Variable net : Req -> Response.
Variable now : string.
Variable message : js_error -> jsval.

Definition assessLegalRisk (av : AvailableServices) (documentText : string) : M jsval :=
  catch
    (let* assessments :=
       if nlp av then
         let* nlpAnalysis := _analyzeWithNaturalLanguage net documentText in
         let* sentiment := get nlpAnalysis "sentiment" in
         let* entities := get nlpAnalysis "entities" in
         ret [JObj [("source", JStr "Natural Language Analysis");
                    ("sentiment", sentiment); ("entities", entities)]]
       else ret [] in
     let aiService := _selectBestAI av "risk_analysis" in
     let riskPrompt := risk_prompt documentText in
     let* aiRiskAssessment := _callAIService net aiService riskPrompt "risk_analysis" in
     ret (JObj [("nlpAnalysis", js_or (nth 0 assessments JUndef) JNull);
                ("aiAssessment", aiRiskAssessment);
                ("timestamp", JStr now)]))
    (fun error => ret (JObj [("error", JStr "Risk assessment failed"); ("details", message error)])).

End Risk.

(** JS's [v > 0.1] and [v < -0.1] go through ToNumber, which this embedding
    does not model for strings: the word a string operand yields is a
    parameter. *)
Section Summarize.
Variable net : Req -> Response.
Variable word_of_numeric_string : string -> string.

(** [sentiment > 0.1 ? 'positive' : sentiment < -0.1 ? 'negative' : 'neutral'];
    on an integer [n], [n > 0.1] is [0 < n] and [n < -0.1] is [n < 0]. *)
Definition sentiment_word (sentiment : jsval) : string :=
  match sentiment with
  | JNum n => if Z.ltb 0 n then "positive" else if Z.ltb n 0 then "negative" else "neutral"
  | JBool true => "positive"
  | JBool false | JNull | JUndef | JObj _ | JFun _ => "neutral"
  | JStr s => word_of_numeric_string s
  | JArr l => word_of_numeric_string (js_to_string (JArr l))
  end.

(** [_formatNLPAnalysis(nlpResult)]: [slice] then [map] only exist together on
    arrays, any other truthy [entities] throws. *)
Definition _formatNLPAnalysis (nlpResult : jsval) : M string :=
  if negb (truthy nlpResult) then ret "" else
  let* ents := get nlpResult "entities" in
  if negb (truthy ents) then ret "" else
  match ents with
  | JArr es =>
      let* names := map_M (fun e => let* n := get e "name" in
                                    let* t := get e "type" in
                                    ret (JStr (js_to_string n ++ " (" ++ js_to_string t ++ ")")))
                          (firstn 10 es) in
      let entities := js_join ", " names in
      let* s := get nlpResult "sentiment" in
      let* score := if is_nullish s then ret JUndef else get s "score" in
      let sentiment := js_or score (JNum 0) in
      ret ("Key entities detected: " ++ entities ++ ". Document sentiment: "
           ++ sentiment_word sentiment ++ ".")
  | _ => throw TypeError
  end.

(** The NLP pre-processing step of [summarizeDocument]. *)
Definition summary_analysis (av : AvailableServices) (documentText : string) : M string :=
  if nlp av then
    let* nlpResult := _analyzeWithNaturalLanguage net (substring 0 5000 documentText) in
    _formatNLPAnalysis nlpResult
  else ret "".

Definition summarizeDocument (av : AvailableServices)
    (documentText summaryType summaryLength : string) : M jsval :=
  catch
    (let* enhancedAnalysis := summary_analysis av documentText in
     let aiService := _selectBestAI av "summarization" in
     let prompt := _buildSummarizationPrompt documentText summaryType summaryLength enhancedAnalysis in
     let* summary :=
       if includes (ai av) "huggingface" && USE_SPECIALIZED_MODELS then
         catch (_summarizeWithHuggingFace documentText summaryType) (fun _ => ret JUndef)
       else ret JUndef in
     let* summary :=
       if negb (truthy summary) then _callAIService net aiService prompt "summarization"
       else ret summary in
     let* summary :=
       if negb (truthy summary) && Nat.ltb 1 (length (ai av))
       then backup_loop net av aiService prompt "summarization" BACKUP_AI summary
       else ret summary in
     ret (js_or summary (JStr (_getFallbackSummary summaryType summaryLength))))
    (fun _ => ret (JStr (_getFallbackSummary summaryType summaryLength))).

End Summarize.
End Obj.

(** * Concrete configurations and network behaviours used below *)
Module Scenario.

(** Success payloads of the generation providers. *)
Definition openai_payload (content : jsval) : jsval :=
  JObj [("choices", JArr [JObj [("message", JObj [("content", content)])]])].
Definition gemini_payload (text : jsval) : jsval :=
  JObj [("candidates", JArr [JObj [("content", JObj [("parts", JArr [JObj [("text", text)]])])]])].
Definition mymemory_payload (text : string) : jsval :=
  JObj [("responseData", JObj [("translatedText", JStr text)])].

(** Every credential of the class module empty. *)
Definition no_keys : Cls.Config := Cls.mkConfig "" "" "".
(** OpenAI and Gemini keys set. *)
Definition both_keys : Cls.Config := Cls.mkConfig "sk-1" "" "AIza-2".
(** Only the Gemini key set. *)
Definition gemini_only_keys : Cls.Config := Cls.mkConfig "" "" "AIza-2".

(** Every provider answers. *)
Definition net_all_up (r : Req) : Response :=
  match rq_endpoint r with
  | OpenAIChat => Http true (Some (openai_payload (JStr "A")))
  | GeminiGenerate => Http true (Some (gemini_payload (JStr "G")))
  | MyMemoryGet _ _ => Http true (Some (mymemory_payload "namaste"))
  | _ => NetErr
  end.

(** OpenAI unreachable, Gemini answers. *)
Definition net_openai_down (r : Req) : Response :=
  match rq_endpoint r with
  | OpenAIChat => NetErr
  | GeminiGenerate => Http true (Some (gemini_payload (JStr "G")))
  | _ => NetErr
  end.

(** OpenAI answers with a message that has no [content]; Gemini answers. *)
Definition net_openai_no_content (r : Req) : Response :=
  match rq_endpoint r with
  | OpenAIChat => Http true (Some (JObj [("choices", JArr [JObj [("message", JObj [])]])]))
  | GeminiGenerate => Http true (Some (gemini_payload (JStr "G")))
  | _ => NetErr
  end.

(** OpenAI answers with an empty object (no [choices]); Gemini answers. *)
Definition net_openai_empty (r : Req) : Response :=
  match rq_endpoint r with
  | OpenAIChat => Http true (Some (JObj []))
  | GeminiGenerate => Http true (Some (gemini_payload (JStr "G")))
  | _ => NetErr
  end.

(** OpenAI answers with a number as the message content. *)
Definition net_openai_number (r : Req) : Response :=
  match rq_endpoint r with
  | OpenAIChat => Http true (Some (openai_payload (JNum 42)))
  | _ => NetErr
  end.

(** Requests to generation providers, i.e. all but the enrichment requests. *)
Definition generation_requests (t : list Req) : list Req :=
  filter (fun r => match rq_endpoint r with NaturalLanguageAnalyze => false | _ => true end) t.


(** No credential in [API_CONFIG]. *)
Definition empty_api_config : Obj.ApiConfig := Obj.mkApiConfig "" "" "" "" "" "" "" "".

(** [setAPIKeys({gemini: 'AIza-2'})] *)
Definition keys_gemini_only : Obj.Keys := Obj.mkKeys "" "AIza-2" "" "" "" "" "" "".

(** The initial value of [legalAPIs.availableServices]. *)
Definition initial_services : Obj.AvailableServices := Obj.mkAvailableServices [] false false false.

(** OpenAI and Gemini available, Natural Language enrichment enabled. *)
Definition av_both_nlp : Obj.AvailableServices :=
  Obj.mkAvailableServices ["openai"; "gemini"] true false false.

(** OpenAI and Gemini available, no enrichment. *)
Definition av_both : Obj.AvailableServices :=
  Obj.mkAvailableServices ["openai"; "gemini"] false false false.

(** Gemini unreachable, OpenAI answers. *)
Definition net_gemini_down (r : Req) : Response :=
  match rq_endpoint r with
  | OpenAIChat => Http true (Some (openai_payload (JStr "A")))
  | _ => NetErr
  end.

(** The Natural Language service answers with a non-array [entities] field. *)
Definition net_nl_bad_entities (r : Req) : Response :=
  match rq_endpoint r with
  | NaturalLanguageAnalyze => Http true (Some (JObj [("entities", JStr "x")]))
  | OpenAIChat => Http true (Some (openai_payload (JStr "A")))
  | _ => NetErr
  end.

(** The [word]s of the entities labelled [label], in input order. *)
Definition words_labelled (label : string) (fss : list (list (string * jsval))) : list jsval :=
  map (assoc_lookup "word") (filter (fun fs => js_eq_str (assoc_lookup "entity_group" fs) label) fss).

(** The eight fields of [API_CONFIG], in declaration order. *)
Definition config_fields (c : Obj.ApiConfig) : list string :=
  [Obj.OPENAI_API_KEY c; Obj.GEMINI_API_KEY c; Obj.GOOGLE_TRANSLATE_API_KEY c;
   Obj.GOOGLE_DOCUMENT_AI_API_KEY c; Obj.GOOGLE_DOCUMENT_AI_PROJECT_ID c;
   Obj.GOOGLE_NATURAL_LANGUAGE_API_KEY c; Obj.ANTHROPIC_API_KEY c; Obj.HUGGINGFACE_API_KEY c].

(** A valid configuration: an OpenAI key and a Translate key. *)
Definition valid_config : Obj.ApiConfig := Obj.mkApiConfig "sk-1" "" "gt-3" "" "" "" "" "".

Definition st_valid : Obj.State := Obj.mkState valid_config initial_services.

(** A browser without [require], whose localStorage holds a Gemini key. *)
Definition env_browser : Obj.Env :=
  Obj.mkEnv false false (fun _ => "") true
    (fun k => if String.eqb k "GEMINI_API_KEY" then "AIza-ls" else "").

(** The endpoint [_callAIService(service, prompt, taskType)] sends to, by the
    branches of its [switch]; [None] for the [default] branch. *)
Definition service_endpoint (service taskType : string) : option Endpoint :=
  if String.eqb service "openai" then Some OpenAIChat
  else if String.eqb service "gemini" then Some GeminiGenerate
  else if String.eqb service "anthropic" then Some AnthropicMessages
  else if String.eqb service "huggingface" then
    Some (HuggingFaceModel (if String.eqb taskType "summarization" then Obj.SUMMARIZATION_MODEL
                            else Obj.LEGAL_MODEL))
  else None.

End Scenario.

(** * Proofs *)

(** ** Facts about the monad *)

Lemma bind_unfold {A B} (m : M A) (f : A -> M B) :
  bind m f = match fst m with
             | Ok a => (fst (f a), app (snd m) (snd (f a)))
             | Throw e => (Throw e, snd m)
             end.
Proof. destruct m as [[a|e] t]; cbn; [destruct (f a)|]; reflexivity. Qed.

Lemma catch_unfold {A} (m : M A) (h : js_error -> M A) :
  catch m h = match fst m with
              | Ok a => (Ok a, snd m)
              | Throw e => (fst (h e), app (snd m) (snd (h e)))
              end.
Proof. destruct m as [[a|e] t]; cbn; [|destruct (h e)]; reflexivity. Qed.


Lemma silent_ret {A} (a : A) : silent (ret a).
Proof. reflexivity. Qed.

Lemma silent_throw {A} e : silent (@throw A e).
Proof. reflexivity. Qed.

Lemma silent_get v k : silent (get v k).
Proof. destruct v; reflexivity. Qed.

Lemma silent_idx v n : silent (idx v n).
Proof. destruct v; reflexivity. Qed.

Lemma silent_bind {A B} (m : M A) (f : A -> M B) :
  silent m -> (forall a, silent (f a)) -> silent (bind m f).
Proof.
  unfold silent; intros Hm Hf; rewrite bind_unfold.
  destruct (fst m); cbn; [rewrite Hm, Hf|]; auto.
Qed.

Create HintDb silent.
#[export] Hint Resolve silent_ret silent_throw silent_get silent_idx silent_bind : silent.

Lemma fst_bind {A B} (m : M A) (f : A -> M B) :
  fst (bind m f) = match fst m with Ok a => fst (f a) | Throw e => Throw e end.
Proof. rewrite bind_unfold; destruct (fst m); reflexivity. Qed.

Lemma fst_catch {A} (m : M A) (h : js_error -> M A) :
  fst (catch m h) = match fst m with Ok a => Ok a | Throw e => fst (h e) end.
Proof. rewrite catch_unfold; destruct (fst m); reflexivity. Qed.

(** A request followed by silent payload processing sends exactly that request. *)
Lemma makeAPICall_then_trace net r {B} (f : jsval -> M B) :
  (forall a, silent (f a)) -> snd (bind (makeAPICall net r) f) = [r].
Proof.
  intros Hf; unfold makeAPICall.
  destruct (net r) as [|[] [j|]]; cbn; try reflexivity.
  specialize (Hf j); unfold silent in Hf; destruct (f j); cbn in *; subst; reflexivity.
Qed.

Lemma catch_ret_never_throws {A} (m : M A) (x : A) :
  exists v, fst (catch m (fun _ => ret x)) = Ok v.
Proof. rewrite catch_unfold; destruct (fst m); cbn; eauto. Qed.

(** ** Facts about the class module *)
Module ClsFacts.
Import Cls.

Lemma summarizeWithOpenAI_trace net p :
  snd (summarizeWithOpenAI net p) = [mkReq OpenAIChat p].
Proof. apply makeAPICall_then_trace; intros; auto 10 with silent. Qed.

Lemma summarizeWithGemini_trace net p :
  snd (summarizeWithGemini net p) = [mkReq GeminiGenerate p].
Proof. apply makeAPICall_then_trace; intros; auto 20 with silent. Qed.

Lemma myMemory_translate_trace net text s t :
  snd (myMemory_translate net text s t) = [mkReq (MyMemoryGet s t) text].
Proof. apply makeAPICall_then_trace; intros; auto 10 with silent. Qed.

Lemma forEach_entity_silent es :
  forall p o l d r, silent (forEach_entity es p o l d r).
Proof.
  induction es as [|e es IH]; intros; cbn; [apply silent_ret|].
  apply silent_bind; [apply silent_get|intros text].
  apply silent_bind; [apply silent_get|intros label].
  repeat match goal with |- context [if ?c then _ else _] => destruct c end; apply IH.
Qed.

Lemma processEntityResponse_silent j : silent (processEntityResponse j).
Proof. destruct j; try apply silent_throw; apply forEach_entity_silent. Qed.

Lemma try_provider_unfold {A} b (m k : M A) :
  try_provider b m k =
  if b then match fst m with
            | Ok a => (Ok a, snd m)
            | Throw _ => (fst k, app (snd m) (snd k))
            end
  else k.
Proof. unfold try_provider; destruct b; [apply catch_unfold|reflexivity]. Qed.


Lemma makeAPICall_other net e r :
  rq_endpoint r <> e -> makeAPICall (endpoint_down e net) r = makeAPICall net r.
Proof.
  intros H; unfold makeAPICall, endpoint_down.
  destruct (Endpoint_eq_dec (rq_endpoint r) e); [contradiction|reflexivity].
Qed.

Lemma makeAPICall_down net r :
  makeAPICall (endpoint_down (rq_endpoint r) net) r = (Throw NetworkError, [r]).
Proof.
  unfold makeAPICall, endpoint_down.
  destruct (Endpoint_eq_dec (rq_endpoint r) (rq_endpoint r)); [reflexivity|contradiction].
Qed.

Lemma summarizeWithOpenAI_other net e p :
  e <> OpenAIChat -> summarizeWithOpenAI (endpoint_down e net) p = summarizeWithOpenAI net p.
Proof. intros; unfold summarizeWithOpenAI; rewrite makeAPICall_other; cbn; congruence. Qed.

Lemma summarizeWithGemini_other net e p :
  e <> GeminiGenerate -> summarizeWithGemini (endpoint_down e net) p = summarizeWithGemini net p.
Proof. intros; unfold summarizeWithGemini; rewrite makeAPICall_other; cbn; congruence. Qed.

Lemma bind_throws {A B} (m : M A) (f : A -> M B) :
  throws m -> throws (bind m f) /\ snd (bind m f) = snd m.
Proof. intros [e He]; rewrite bind_unfold, He; split; [exists e|]; reflexivity. Qed.

Lemma makeAPICall_down_throws {B} net r (f : jsval -> M B) :
  throws (bind (makeAPICall (endpoint_down (rq_endpoint r) net) r) f).
Proof. rewrite makeAPICall_down; exists NetworkError; reflexivity. Qed.

Lemma try_provider_throw_same {A} b (m1 m2 k : M A) :
  throws m1 -> throws m2 -> snd m1 = snd m2 -> try_provider b m1 k = try_provider b m2 k.
Proof.
  intros [e1 H1] [e2 H2] Ht; rewrite !try_provider_unfold, H1, H2, Ht; reflexivity.
Qed.

Lemma catch_throw_same {A} (m1 m2 : M A) (h : js_error -> M A) :
  throws m1 -> throws m2 -> snd m1 = snd m2 -> (forall e1 e2, h e1 = h e2) ->
  catch m1 h = catch m2 h.
Proof.
  intros [e1 H1] [e2 H2] Ht Hh; rewrite !catch_unfold, H1, H2, Ht, (Hh e1 e2); reflexivity.
Qed.

Lemma forEach_entity_shape es : forall p o l d r v,
  fst (forEach_entity es p o l d r) = Ok v ->
  exists p' o' l' d' r', v = entities_obj p' o' l' d' r'.
Proof.
  induction es as [|e es IH]; intros p o l d r v H; cbn [forEach_entity] in H.
  - injection H as <-; eauto 6.
  - rewrite fst_bind in H; destruct (fst (get e "word")) as [text|]; [|discriminate].
    rewrite fst_bind in H; destruct (fst (get e "entity_group")) as [label|]; [|discriminate].
    repeat match type of H with context [if ?c then _ else _] => destruct c end;
      eapply IH; exact H.
Qed.

Lemma extractEntities_shape net cfg text :
  exists p o l d r, fst (extractEntities net cfg text) = Ok (entities_obj p o l d r).
Proof.
  unfold extractEntities; rewrite try_provider_unfold.
  destruct (str_truthy (huggingface_apiKey cfg)); [|do 5 eexists; reflexivity].
  rewrite fst_bind.
  destruct (fst (makeAPICall net (mkReq (HuggingFaceModel NER_MODEL) text))) as [j|] eqn:E;
    cbn; [|do 5 eexists; reflexivity].
  destruct (fst (processEntityResponse j)) as [v|] eqn:Ev; cbn; [|do 5 eexists; reflexivity].
  destruct j; cbn in Ev; try discriminate.
  apply forEach_entity_shape in Ev as (p & o & l & d & r & ->); eauto 6.
Qed.

Ltac split_results :=
  repeat match goal with
         | |- context [if ?b then _ else _] => destruct b
         | |- context [match fst ?m with _ => _ end] => destruct (fst m) eqn:?
         end; cbn; eauto 10.

Lemma summarizeDocument_result net cfg text st len :
  exists v, fst (summarizeDocument net cfg text st len) = Ok v /\
    (v = getMockSummary st \/
     fst (summarizeWithOpenAI net (summaryPrompt text st len)) = Ok v \/
     fst (summarizeWithGemini net (summaryPrompt text st len)) = Ok v).
Proof. unfold summarizeDocument; rewrite !try_provider_unfold; split_results. Qed.

(** An inherited name is never [undefined]: it is truthy and not a string. *)
Lemma proto_prop_cases k :
  (proto_key k = false /\ proto_prop k = JUndef) \/
  (proto_key k = true /\ truthy (proto_prop k) = true /\ forall s, proto_prop k <> JStr s).
Proof.
  unfold proto_key, proto_prop, object_prototype_methods, native_fn; cbn [existsb orb].
  repeat match goal with |- context [String.eqb k ?x] => destruct (String.eqb k x) end;
    cbn; first [ left; split; reflexivity
               | right; split; [reflexivity|split; [reflexivity|intros s; discriminate]] ].
Qed.

Lemma summary_tables_unknown text st :
  str_lookup st (prompts text) = None -> str_lookup st mockSummaries = None.
Proof.
  unfold prompts, mockSummaries; cbn [str_lookup]; intros H.
  repeat match type of H with context [if ?c then _ else _] =>
    destruct c; [discriminate|] end; reflexivity.
Qed.

Lemma summaryPrompt_unknown text st len :
  str_lookup st (prompts text) = None ->
  summaryPrompt text st len
    = js_to_string (proto_prop st) ++ " " ++ js_to_string (prop_lookup len lengthInstructions).
Proof. intros H; unfold summaryPrompt, prop_lookup at 1; rewrite H; reflexivity. Qed.

Lemma getMockSummary_unknown st :
  str_lookup st mockSummaries = None ->
  getMockSummary st = js_or (proto_prop st) (getMockSummary "comprehensive").
Proof. intros H; unfold getMockSummary, prop_lookup at 1; rewrite H; reflexivity. Qed.

Lemma str_lookup_key k tbl v : str_lookup k tbl = Some v -> In k (map fst tbl).
Proof.
  induction tbl as [|[k' v'] tbl IH]; cbn; [discriminate|].
  destruct (String.eqb_spec k k'); auto.
Qed.

Lemma getMockSummary_string st :
  (exists s, getMockSummary st = JStr s) <-> proto_key st = false.
Proof.
  unfold getMockSummary, prop_lookup at 1.
  destruct (str_lookup st mockSummaries) as [s|] eqn:E.
  - split; [intros _|intros _; unfold js_or; destruct (truthy (JStr s)); eexists; reflexivity].
    apply str_lookup_key in E; cbn in E.
    repeat destruct E as [<-|E]; try reflexivity; contradiction.
  - destruct (proto_prop_cases st) as [[-> ->]|(-> & Ht & Hs)].
    + split; [reflexivity|intros _; eexists; reflexivity].
    + split; [|discriminate]. intros [s Hv]. unfold js_or in Hv; rewrite Ht in Hv.
      exfalso; exact (Hs s Hv).
Qed.

Lemma askLegalQuestion_result net cfg question ctx :
  exists v, fst (askLegalQuestion net cfg question ctx) = Ok v /\
    (v = JStr (getMockLegalAnswer question) \/
     fst (summarizeWithOpenAI net (legalQuestionPrompt question ctx)) = Ok v \/
     fst (summarizeWithGemini net (legalQuestionPrompt question ctx)) = Ok v).
Proof. unfold askLegalQuestion; rewrite !try_provider_unfold; split_results. Qed.

Lemma performSemanticSearch_result net cfg query doc :
  exists v, fst (performSemanticSearch net cfg query doc) = Ok v /\
    (v = JStr (getMockSearchResults query) \/
     fst (summarizeWithOpenAI net (searchPrompt query doc)) = Ok v \/
     fst (summarizeWithGemini net (searchPrompt query doc)) = Ok v).
Proof.
  unfold performSemanticSearch; rewrite fst_bind, fst_catch.
  destruct (str_truthy (openai_apiKey cfg)).
  - rewrite fst_bind.
    destruct (fst (summarizeWithOpenAI net (searchPrompt query doc))) eqn:E;
      cbn -[getMockSearchResults]; eauto 10.
  - destruct (str_truthy (gemini_apiKey cfg)); [rewrite fst_bind|].
    + destruct (fst (summarizeWithGemini net (searchPrompt query doc))) eqn:E;
        cbn -[getMockSearchResults]; eauto 10.
    + cbn -[getMockSearchResults]; eauto 10.
Qed.

Lemma translateText_result net cfg text s t :
  exists v, fst (translateText net cfg text s t) = Ok v /\
    (v = JStr (getMockTranslation text s t) \/ fst (myMemory_translate net text s t) = Ok v).
Proof. unfold translateText; rewrite fst_catch; split_results. Qed.

End ClsFacts.

(** ** Facts about the object module *)
Module ObjFacts.
Import Obj Scenario.

Lemma snd_bind_silent {A B} (m : M A) (f : A -> M B) :
  (forall a, silent (f a)) -> snd (bind m f) = snd m.
Proof.
  intros Hf; rewrite bind_unfold; destruct (fst m); cbn; [|reflexivity].
  rewrite Hf; apply app_nil_r.
Qed.

Lemma snd_catch_ret {A} (m : M A) (x : A) : snd (catch m (fun _ => ret x)) = snd m.
Proof. rewrite catch_unfold; destruct (fst m); cbn; [reflexivity|apply app_nil_r]. Qed.

Lemma map_M_silent (f : jsval -> M jsval) l :
  (forall a, silent (f a)) -> silent (map_M f l).
Proof. intros Hf; induction l; cbn; auto with silent. Qed.

Lemma entities_text_silent j : silent (entities_text j).
Proof.
  unfold entities_text; apply silent_bind; [apply silent_get|intros ents].
  apply silent_bind; [|intros; apply silent_ret].
  destruct (is_nullish ents); [apply silent_ret|].
  destruct ents; try apply silent_throw.
  apply silent_bind; [apply map_M_silent; intros; apply silent_get|intros; apply silent_ret].
Qed.

Lemma sentiment_text_silent j : silent (sentiment_text j).
Proof.
  unfold sentiment_text; apply silent_bind; [apply silent_get|intros sentiment].
  apply silent_bind; [|intros; apply silent_ret].
  destruct (is_nullish sentiment); [apply silent_ret|apply silent_get].
Qed.

#[export] Hint Resolve entities_text_silent sentiment_text_silent : silent.

Lemma nl_body_trace net text :
  snd (nl_body net text) = [mkReq NaturalLanguageAnalyze (substring 0 10000 text)].
Proof. apply makeAPICall_then_trace; intros; auto 20 with silent. Qed.

Lemma analyze_trace net text :
  snd (_analyzeWithNaturalLanguage net text)
    = [mkReq NaturalLanguageAnalyze (substring 0 10000 text)].
Proof. unfold _analyzeWithNaturalLanguage; rewrite snd_catch_ret; apply nl_body_trace. Qed.

(** The enrichment step sends one request when it runs, none otherwise. *)
Lemma enhance_context_trace net av ctx :
  snd (enhance_context net av ctx)
    = if nlp av && str_truthy ctx
      then [mkReq NaturalLanguageAnalyze (substring 0 10000 (substring 0 1000 ctx))]
      else [].
Proof.
  unfold enhance_context; destruct (nlp av && str_truthy ctx); [|reflexivity].
  rewrite snd_bind_silent by (intros; auto 10 with silent).
  apply analyze_trace.
Qed.

Lemma enhance_context_generation net av ctx :
  generation_requests (snd (enhance_context net av ctx)) = [].
Proof. rewrite enhance_context_trace; destruct (nlp av && str_truthy ctx); reflexivity. Qed.





Lemma generation_requests_app l1 l2 :
  generation_requests (app l1 l2) = app (generation_requests l1) (generation_requests l2).
Proof. apply filter_app. Qed.

Lemma callGemini_trace net p :
  snd (_callGemini net p) = [mkReq GeminiGenerate p].
Proof. apply makeAPICall_then_trace; intros; auto 20 with silent. Qed.

(** With Gemini selected, the first request after enrichment goes to Gemini. *)
Lemma answer_with_context_gemini_first net av q ec :
  exists rest, snd (answer_with_context net av (Some "gemini") q ec)
               = mkReq GeminiGenerate (_buildLegalPrompt q ec) :: rest.
Proof.
  unfold answer_with_context; cbv zeta.
  change (_callAIService net (Some "gemini") (_buildLegalPrompt q ec) "legal_qa")
    with (_callGemini net (_buildLegalPrompt q ec)).
  rewrite bind_unfold.
  destruct (fst (_callGemini net (_buildLegalPrompt q ec))); cbn [snd];
    rewrite callGemini_trace; cbn [app]; eauto.
Qed.

Lemma selectBestAI_legal_qa av :
  includes (ai av) "gemini" = true -> _selectBestAI av "legal_qa" = Some "gemini".
Proof. intros H; unfold _selectBestAI; cbn -[includes]; rewrite H; reflexivity. Qed.

Lemma selectBestAI_summarization av :
  includes (ai av) "openai" = true -> _selectBestAI av "summarization" = Some "openai".
Proof. intros H; unfold _selectBestAI; cbn -[includes]; rewrite H; reflexivity. Qed.



End ObjFacts.

(** * The claims *)
Import Scenario.



(** C2: when the first-ranked provider (OpenAI for summarization, Q&A and search;
    Hugging Face, the only one, for entities) is configured and its adapter call
    succeeds with [v], the entry point returns [v] after that single request. *)
Theorem first_provider_success_stops : forall net cfg,
  (str_truthy (Cls.openai_apiKey cfg) = true ->
   (forall text st len v,
      fst (Cls.summarizeWithOpenAI net (Cls.summaryPrompt text st len)) = Ok v ->
      Cls.summarizeDocument net cfg text st len
        = (Ok v, [mkReq OpenAIChat (Cls.summaryPrompt text st len)])) /\
   (forall question ctx v,
      fst (Cls.summarizeWithOpenAI net (Cls.legalQuestionPrompt question ctx)) = Ok v ->
      Cls.askLegalQuestion net cfg question ctx
        = (Ok v, [mkReq OpenAIChat (Cls.legalQuestionPrompt question ctx)])) /\
   (forall query doc v,
      fst (Cls.summarizeWithOpenAI net (Cls.searchPrompt query doc)) = Ok v ->
      Cls.performSemanticSearch net cfg query doc
        = (Ok v, [mkReq OpenAIChat (Cls.searchPrompt query doc)]))) /\
  (str_truthy (Cls.huggingface_apiKey cfg) = true ->
   forall text v,
     fst (let* response := makeAPICall net (mkReq (HuggingFaceModel Cls.NER_MODEL) text) in
          Cls.processEntityResponse response) = Ok v ->
     Cls.extractEntities net cfg text
       = (Ok v, [mkReq (HuggingFaceModel Cls.NER_MODEL) text])).
Proof.
  intros net cfg; split.
  - intros Hk; repeat split; intros * Hv.
    + unfold Cls.summarizeDocument; rewrite ClsFacts.try_provider_unfold, Hk, Hv.
      rewrite ClsFacts.summarizeWithOpenAI_trace; reflexivity.
    + unfold Cls.askLegalQuestion; rewrite ClsFacts.try_provider_unfold, Hk, Hv.
      rewrite ClsFacts.summarizeWithOpenAI_trace; reflexivity.
    + unfold Cls.performSemanticSearch; rewrite Hk.
      rewrite bind_unfold, catch_unfold, bind_unfold, Hv.
      rewrite ClsFacts.summarizeWithOpenAI_trace; reflexivity.
  - intros Hk text v Hv.
    unfold Cls.extractEntities; rewrite ClsFacts.try_provider_unfold, Hk, Hv.
    rewrite makeAPICall_then_trace by apply ClsFacts.processEntityResponse_silent.
    reflexivity.
Qed.

Lemma first_provider_success_stops_witness :
  str_truthy (Cls.openai_apiKey both_keys) = true /\
  fst (Cls.summarizeWithOpenAI net_all_up (Cls.summaryPrompt "doc" "executive" "short"))
    = Ok (JStr "A") /\
  Cls.summarizeDocument net_all_up both_keys "doc" "executive" "short"
    = (Ok (JStr "A"), [mkReq OpenAIChat (Cls.summaryPrompt "doc" "executive" "short")]).
Proof.
  split; [reflexivity|]. split; [reflexivity|].
  refine (proj1 (proj1 (first_provider_success_stops net_all_up both_keys) eq_refl)
            "doc" "executive" "short" (JStr "A") _).
  reflexivity.
Defined.

(** C3 (defect): with OpenAI and Gemini configured, OpenAI unreachable and Gemini
    answering, [performSemanticSearch] returns its mock result after the single
    OpenAI request, while the sibling [summarizeDocument] moves on to Gemini. *)
Theorem search_skips_second_provider :
  Cls.performSemanticSearch net_openai_down both_keys "notice period" "doc"
    = (Ok (JStr (Cls.getMockSearchResults "notice period")),
       [mkReq OpenAIChat (Cls.searchPrompt "notice period" "doc")]) /\
  Cls.summarizeDocument net_openai_down both_keys "doc" "executive" "short"
    = (Ok (JStr "G"),
       [mkReq OpenAIChat (Cls.summaryPrompt "doc" "executive" "short");
        mkReq GeminiGenerate (Cls.summaryPrompt "doc" "executive" "short")]).
Proof. split; reflexivity. Qed.


(** C6 (as stated, refuted): a success payload whose message has no [content]
    is not treated as a failure: [summarizeDocument] returns [undefined] after the
    OpenAI request and never tries Gemini. *)
Lemma missing_content_field_not_failure :
  Cls.summarizeDocument net_openai_no_content both_keys "doc" "executive" "short"
    = (Ok JUndef, [mkReq OpenAIChat (Cls.summaryPrompt "doc" "executive" "short")]).
Proof. reflexivity. Qed.

(** C6 (amended): whenever an adapter throws, because of a transport error or
    because its field path dereferences [undefined] or [null] in a malformed
    payload, each entry point behaves exactly as if that provider were
    unreachable; payloads without [choices] and non-array entity payloads do
    throw.  A payload missing only the last field of the path (a message
    without [content], a part without [text], [responseData] without
    [translatedText]) does not throw: the adapter returns [undefined], and an
    entry point returns whatever value its provider's adapter returns, with no
    further request. *)
Theorem adapter_throw_handled_as_transport_failure : forall net cfg,
  (forall text st len,
     throws (Cls.summarizeWithOpenAI net (Cls.summaryPrompt text st len)) ->
     Cls.summarizeDocument net cfg text st len
       = Cls.summarizeDocument (endpoint_down OpenAIChat net) cfg text st len) /\
  (forall text st len,
     throws (Cls.summarizeWithGemini net (Cls.summaryPrompt text st len)) ->
     Cls.summarizeDocument net cfg text st len
       = Cls.summarizeDocument (endpoint_down GeminiGenerate net) cfg text st len) /\
  (forall question ctx,
     throws (Cls.summarizeWithOpenAI net (Cls.legalQuestionPrompt question ctx)) ->
     Cls.askLegalQuestion net cfg question ctx
       = Cls.askLegalQuestion (endpoint_down OpenAIChat net) cfg question ctx) /\
  (forall question ctx,
     throws (Cls.summarizeWithGemini net (Cls.legalQuestionPrompt question ctx)) ->
     Cls.askLegalQuestion net cfg question ctx
       = Cls.askLegalQuestion (endpoint_down GeminiGenerate net) cfg question ctx) /\
  (forall query doc,
     throws (Cls.summarizeWithOpenAI net (Cls.searchPrompt query doc)) ->
     Cls.performSemanticSearch net cfg query doc
       = Cls.performSemanticSearch (endpoint_down OpenAIChat net) cfg query doc) /\
  (forall text,
     throws (let* response := makeAPICall net (mkReq (HuggingFaceModel Cls.NER_MODEL) text) in
             Cls.processEntityResponse response) ->
     Cls.extractEntities net cfg text
       = Cls.extractEntities (endpoint_down (HuggingFaceModel Cls.NER_MODEL) net) cfg text) /\
  (forall text s t,
     throws (Cls.myMemory_translate net text s t) ->
     Cls.translateText net cfg text s t
       = Cls.translateText (endpoint_down (MyMemoryGet s t) net) cfg text s t) /\
  (forall p fs,
     net (mkReq OpenAIChat p) = Http true (Some (JObj fs)) ->
     assoc_lookup "choices" fs = JUndef ->
     fst (Cls.summarizeWithOpenAI net p) = Throw TypeError) /\
  (forall j, (forall l, j <> JArr l) -> Cls.processEntityResponse j = throw TypeError) /\
  (forall query doc,
     throws (Cls.summarizeWithGemini net (Cls.searchPrompt query doc)) ->
     Cls.performSemanticSearch net cfg query doc
       = Cls.performSemanticSearch (endpoint_down GeminiGenerate net) cfg query doc) /\
  (forall p fs cs ms rest,
     net (mkReq OpenAIChat p) = Http true (Some (JObj fs)) ->
     assoc_lookup "choices" fs = JArr (JObj cs :: rest) ->
     assoc_lookup "message" cs = JObj ms ->
     assoc_lookup "content" ms = JUndef ->
     Cls.summarizeWithOpenAI net p = (Ok JUndef, [mkReq OpenAIChat p])) /\
  (forall p fs cs cts pfs crest prest,
     net (mkReq GeminiGenerate p) = Http true (Some (JObj fs)) ->
     assoc_lookup "candidates" fs = JArr (JObj cs :: crest) ->
     assoc_lookup "content" cs = JObj cts ->
     assoc_lookup "parts" cts = JArr (JObj pfs :: prest) ->
     assoc_lookup "text" pfs = JUndef ->
     Cls.summarizeWithGemini net p = (Ok JUndef, [mkReq GeminiGenerate p])) /\
  (forall text s t fs rs,
     net (mkReq (MyMemoryGet s t) text) = Http true (Some (JObj fs)) ->
     assoc_lookup "responseData" fs = JObj rs ->
     assoc_lookup "translatedText" rs = JUndef ->
     Cls.myMemory_translate net text s t = (Ok JUndef, [mkReq (MyMemoryGet s t) text])) /\
  (str_truthy (Cls.openai_apiKey cfg) = true -> forall v,
     (forall text st len,
        fst (Cls.summarizeWithOpenAI net (Cls.summaryPrompt text st len)) = Ok v ->
        Cls.summarizeDocument net cfg text st len
          = (Ok v, [mkReq OpenAIChat (Cls.summaryPrompt text st len)])) /\
     (forall question ctx,
        fst (Cls.summarizeWithOpenAI net (Cls.legalQuestionPrompt question ctx)) = Ok v ->
        Cls.askLegalQuestion net cfg question ctx
          = (Ok v, [mkReq OpenAIChat (Cls.legalQuestionPrompt question ctx)])) /\
     (forall query doc,
        fst (Cls.summarizeWithOpenAI net (Cls.searchPrompt query doc)) = Ok v ->
        Cls.performSemanticSearch net cfg query doc
          = (Ok v, [mkReq OpenAIChat (Cls.searchPrompt query doc)]))) /\
  (str_truthy (Cls.openai_apiKey cfg) = false -> str_truthy (Cls.gemini_apiKey cfg) = true -> forall v,
     (forall text st len,
        fst (Cls.summarizeWithGemini net (Cls.summaryPrompt text st len)) = Ok v ->
        Cls.summarizeDocument net cfg text st len
          = (Ok v, [mkReq GeminiGenerate (Cls.summaryPrompt text st len)])) /\
     (forall question ctx,
        fst (Cls.summarizeWithGemini net (Cls.legalQuestionPrompt question ctx)) = Ok v ->
        Cls.askLegalQuestion net cfg question ctx
          = (Ok v, [mkReq GeminiGenerate (Cls.legalQuestionPrompt question ctx)])) /\
     (forall query doc,
        fst (Cls.summarizeWithGemini net (Cls.searchPrompt query doc)) = Ok v ->
        Cls.performSemanticSearch net cfg query doc
          = (Ok v, [mkReq GeminiGenerate (Cls.searchPrompt query doc)]))) /\
  (str_truthy (Cls.openai_apiKey cfg) = true -> str_truthy (Cls.gemini_apiKey cfg) = true -> forall v,
     (forall text st len,
        throws (Cls.summarizeWithOpenAI net (Cls.summaryPrompt text st len)) ->
        fst (Cls.summarizeWithGemini net (Cls.summaryPrompt text st len)) = Ok v ->
        Cls.summarizeDocument net cfg text st len
          = (Ok v, [mkReq OpenAIChat (Cls.summaryPrompt text st len);
                    mkReq GeminiGenerate (Cls.summaryPrompt text st len)])) /\
     (forall question ctx,
        throws (Cls.summarizeWithOpenAI net (Cls.legalQuestionPrompt question ctx)) ->
        fst (Cls.summarizeWithGemini net (Cls.legalQuestionPrompt question ctx)) = Ok v ->
        Cls.askLegalQuestion net cfg question ctx
          = (Ok v, [mkReq OpenAIChat (Cls.legalQuestionPrompt question ctx);
                    mkReq GeminiGenerate (Cls.legalQuestionPrompt question ctx)]))) /\
  (forall text s t v,
     fst (Cls.myMemory_translate net text s t) = Ok v ->
     Cls.translateText net cfg text s t = (Ok v, [mkReq (MyMemoryGet s t) text])).
Proof.
  intros net cfg.
  repeat match goal with |- _ /\ _ => split end.
  - intros * H. unfold Cls.summarizeDocument.
    rewrite ClsFacts.summarizeWithGemini_other by discriminate.
    apply ClsFacts.try_provider_throw_same; auto.
    + apply (ClsFacts.makeAPICall_down_throws net (mkReq OpenAIChat _)).
    + rewrite !ClsFacts.summarizeWithOpenAI_trace; reflexivity.
  - intros * H. unfold Cls.summarizeDocument.
    rewrite ClsFacts.summarizeWithOpenAI_other by discriminate.
    f_equal. apply ClsFacts.try_provider_throw_same; auto.
    + apply (ClsFacts.makeAPICall_down_throws net (mkReq GeminiGenerate _)).
    + rewrite !ClsFacts.summarizeWithGemini_trace; reflexivity.
  - intros * H. unfold Cls.askLegalQuestion.
    rewrite ClsFacts.summarizeWithGemini_other by discriminate.
    apply ClsFacts.try_provider_throw_same; auto.
    + apply (ClsFacts.makeAPICall_down_throws net (mkReq OpenAIChat _)).
    + rewrite !ClsFacts.summarizeWithOpenAI_trace; reflexivity.
  - intros * H. unfold Cls.askLegalQuestion.
    rewrite ClsFacts.summarizeWithOpenAI_other by discriminate.
    f_equal. apply ClsFacts.try_provider_throw_same; auto.
    + apply (ClsFacts.makeAPICall_down_throws net (mkReq GeminiGenerate _)).
    + rewrite !ClsFacts.summarizeWithGemini_trace; reflexivity.
  - intros * H. unfold Cls.performSemanticSearch.
    destruct (str_truthy (Cls.openai_apiKey cfg)).
    + assert (H2 : throws (Cls.summarizeWithOpenAI (endpoint_down OpenAIChat net)
                                                    (Cls.searchPrompt query doc)))
        by apply (ClsFacts.makeAPICall_down_throws net (mkReq OpenAIChat _)).
      f_equal. apply ClsFacts.catch_throw_same; auto.
      * apply ClsFacts.bind_throws; exact H.
      * apply ClsFacts.bind_throws; exact H2.
      * rewrite (proj2 (ClsFacts.bind_throws _ _ H)), (proj2 (ClsFacts.bind_throws _ _ H2)).
        rewrite !ClsFacts.summarizeWithOpenAI_trace; reflexivity.
    + rewrite ClsFacts.summarizeWithGemini_other by discriminate; reflexivity.
  - intros * H. unfold Cls.extractEntities.
    apply ClsFacts.try_provider_throw_same; auto.
    + apply (ClsFacts.makeAPICall_down_throws net (mkReq (HuggingFaceModel _) _)).
    + rewrite !makeAPICall_then_trace by apply ClsFacts.processEntityResponse_silent.
      reflexivity.
  - intros * H. unfold Cls.translateText.
    apply ClsFacts.catch_throw_same; auto.
    + apply (ClsFacts.makeAPICall_down_throws net (mkReq (MyMemoryGet _ _) _)).
    + rewrite !ClsFacts.myMemory_translate_trace; reflexivity.
  - intros p fs Hn Hc. unfold Cls.summarizeWithOpenAI, makeAPICall.
    rewrite Hn; cbn; rewrite Hc; reflexivity.
  - intros j Hj; destruct j; try reflexivity. exfalso; eapply Hj; reflexivity.
  - intros * H. unfold Cls.performSemanticSearch.
    destruct (str_truthy (Cls.openai_apiKey cfg)).
    + rewrite ClsFacts.summarizeWithOpenAI_other by discriminate; reflexivity.
    + destruct (str_truthy (Cls.gemini_apiKey cfg)); [|reflexivity].
      assert (H2 : throws (Cls.summarizeWithGemini (endpoint_down GeminiGenerate net)
                                                    (Cls.searchPrompt query doc)))
        by apply (ClsFacts.makeAPICall_down_throws net (mkReq GeminiGenerate _)).
      f_equal. apply ClsFacts.catch_throw_same; auto.
      * apply ClsFacts.bind_throws; exact H.
      * apply ClsFacts.bind_throws; exact H2.
      * rewrite (proj2 (ClsFacts.bind_throws _ _ H)), (proj2 (ClsFacts.bind_throws _ _ H2)).
        rewrite !ClsFacts.summarizeWithGemini_trace; reflexivity.
  - intros * Hn H1 H2 H3. unfold Cls.summarizeWithOpenAI, makeAPICall.
    rewrite Hn; cbn; rewrite H1; cbn; rewrite H2; cbn; rewrite H3; reflexivity.
  - intros * Hn H1 H2 H3 H4. unfold Cls.summarizeWithGemini, makeAPICall.
    rewrite Hn; cbn; rewrite H1; cbn; rewrite H2; cbn; rewrite H3; cbn; rewrite H4; reflexivity.
  - intros * Hn H1 H2. unfold Cls.myMemory_translate, makeAPICall.
    rewrite Hn; cbn; rewrite H1; cbn; rewrite H2; reflexivity.
  - intros Hk v; repeat split; intros * Hv.
    + unfold Cls.summarizeDocument; rewrite ClsFacts.try_provider_unfold, Hk, Hv.
      rewrite ClsFacts.summarizeWithOpenAI_trace; reflexivity.
    + unfold Cls.askLegalQuestion; rewrite ClsFacts.try_provider_unfold, Hk, Hv.
      rewrite ClsFacts.summarizeWithOpenAI_trace; reflexivity.
    + unfold Cls.performSemanticSearch; rewrite Hk.
      rewrite bind_unfold, catch_unfold, bind_unfold, Hv.
      rewrite ClsFacts.summarizeWithOpenAI_trace; reflexivity.
  - intros Hk Hg v; repeat split; intros * Hv.
    + unfold Cls.summarizeDocument; rewrite !ClsFacts.try_provider_unfold, Hk, Hg, Hv.
      rewrite ClsFacts.summarizeWithGemini_trace; reflexivity.
    + unfold Cls.askLegalQuestion; rewrite !ClsFacts.try_provider_unfold, Hk, Hg, Hv.
      rewrite ClsFacts.summarizeWithGemini_trace; reflexivity.
    + unfold Cls.performSemanticSearch; rewrite Hk, Hg.
      rewrite bind_unfold, catch_unfold, bind_unfold, Hv.
      rewrite ClsFacts.summarizeWithGemini_trace; reflexivity.
  - intros Hk Hg v; split; intros * [e He] Hv.
    + unfold Cls.summarizeDocument; rewrite !ClsFacts.try_provider_unfold, Hk, Hg, He, Hv.
      rewrite ClsFacts.summarizeWithOpenAI_trace, ClsFacts.summarizeWithGemini_trace; reflexivity.
    + unfold Cls.askLegalQuestion; rewrite !ClsFacts.try_provider_unfold, Hk, Hg, He, Hv.
      rewrite ClsFacts.summarizeWithOpenAI_trace, ClsFacts.summarizeWithGemini_trace; reflexivity.
  - intros * Hv. unfold Cls.translateText; rewrite catch_unfold, Hv.
    rewrite ClsFacts.myMemory_translate_trace; reflexivity.
Qed.

Lemma adapter_throw_handled_as_transport_failure_witness :
  throws (Cls.summarizeWithOpenAI net_openai_empty (Cls.summaryPrompt "doc" "executive" "short")) /\
  Cls.summarizeDocument net_openai_empty both_keys "doc" "executive" "short"
    = Cls.summarizeDocument (endpoint_down OpenAIChat net_openai_empty) both_keys "doc" "executive" "short" /\
  fst (Cls.summarizeDocument net_openai_empty both_keys "doc" "executive" "short") = Ok (JStr "G") /\
  Cls.performSemanticSearch net_openai_no_content both_keys "q" "doc"
    = (Ok JUndef, [mkReq OpenAIChat (Cls.searchPrompt "q" "doc")]).
Proof.
  assert (H : throws (Cls.summarizeWithOpenAI net_openai_empty (Cls.summaryPrompt "doc" "executive" "short")))
    by (exists TypeError; reflexivity).
  split; [exact H|]. split; [|split; [reflexivity|]].
  - exact (proj1 (adapter_throw_handled_as_transport_failure net_openai_empty both_keys)
             "doc" "executive" "short" H).
  - pose proof (adapter_throw_handled_as_transport_failure net_openai_no_content both_keys)
      as (_ & _ & _ & _ & _ & _ & _ & _ & _ & _ & Hlast & _ & _ & Hfirst & _).
    assert (Hs : Cls.summarizeWithOpenAI net_openai_no_content (Cls.searchPrompt "q" "doc")
                 = (Ok JUndef, [mkReq OpenAIChat (Cls.searchPrompt "q" "doc")]))
      by (apply (Hlast _ [("choices", JArr [JObj [("message", JObj [])]])]
                   [("message", JObj [])] [] []); reflexivity).
    refine (proj2 (proj2 (Hfirst eq_refl JUndef)) "q" "doc" _).
    rewrite Hs; reflexivity.
Defined.

(** C7 (as stated, refuted): the summarization result is whatever the provider
    put in [message.content]; here a number, not a string. *)
Lemma summary_result_not_a_string :
  fst (Cls.summarizeDocument net_openai_number both_keys "doc" "executive" "short") = Ok (JNum 42) /\
  ~ (exists s, fst (Cls.summarizeDocument net_openai_number both_keys "doc" "executive" "short")
                 = Ok (JStr s)).
Proof.
  split; [reflexivity|].
  intros [s Hs]; vm_compute in Hs; discriminate.
Qed.

(** C7 (amended): [extractEntities] always returns an object whose keys are
    exactly persons, organizations, locations, dates, legal_refs, each an array;
    the four text tasks never throw and return either their mock value or the
    value the provider's payload holds at the adapter's field path, unchecked.
    The mock values are strings, except that of [summarizeDocument] for a
    summary type inherited from [Object.prototype] (e.g. toString), which is
    that inherited function or object. *)
Theorem task_result_shapes : forall net cfg,
  (forall text, exists fs,
     fst (Cls.extractEntities net cfg text) = Ok (JObj fs) /\
     map fst fs = ["persons"; "organizations"; "locations"; "dates"; "legal_refs"] /\
     (forall k v, In (k, v) fs -> exists l, v = JArr l)) /\
  (forall text st len, exists v,
     fst (Cls.summarizeDocument net cfg text st len) = Ok v /\
     (v = Cls.getMockSummary st \/
      fst (Cls.summarizeWithOpenAI net (Cls.summaryPrompt text st len)) = Ok v \/
      fst (Cls.summarizeWithGemini net (Cls.summaryPrompt text st len)) = Ok v)) /\
  (forall question ctx, exists v,
     fst (Cls.askLegalQuestion net cfg question ctx) = Ok v /\
     (v = JStr (Cls.getMockLegalAnswer question) \/
      fst (Cls.summarizeWithOpenAI net (Cls.legalQuestionPrompt question ctx)) = Ok v \/
      fst (Cls.summarizeWithGemini net (Cls.legalQuestionPrompt question ctx)) = Ok v)) /\
  (forall query doc, exists v,
     fst (Cls.performSemanticSearch net cfg query doc) = Ok v /\
     (v = JStr (Cls.getMockSearchResults query) \/
      fst (Cls.summarizeWithOpenAI net (Cls.searchPrompt query doc)) = Ok v \/
      fst (Cls.summarizeWithGemini net (Cls.searchPrompt query doc)) = Ok v)) /\
  (forall text s t, exists v,
     fst (Cls.translateText net cfg text s t) = Ok v /\
     (v = JStr (Cls.getMockTranslation text s t) \/
      fst (Cls.myMemory_translate net text s t) = Ok v)) /\
  (forall st, (exists s, Cls.getMockSummary st = JStr s) <-> proto_key st = false).
Proof.
  intros net cfg; repeat match goal with |- _ /\ _ => split end.
  - intros text.
    destruct (ClsFacts.extractEntities_shape net cfg text) as (p & o & l & d & r & H).
    eexists; split; [exact H|]; split; [reflexivity|].
    intros k v Hin; cbn in Hin.
    repeat destruct Hin as [Hin|Hin]; try (injection Hin as _ <-; eauto); contradiction.
  - apply ClsFacts.summarizeDocument_result.
  - apply ClsFacts.askLegalQuestion_result.
  - apply ClsFacts.performSemanticSearch_result.
  - apply ClsFacts.translateText_result.
  - apply ClsFacts.getMockSummary_string.
Qed.

(** C9 (as stated, refuted): an unknown [summaryType] is not rejected: the
    providers are called with a prompt that reads "undefined ...", and without
    providers the comprehensive mock summary is substituted. *)
Lemma invalid_summary_type_not_rejected :
  Cls.summarizeDocument net_all_up both_keys "doc" "bogus" "short"
    = (Ok (JStr "A"), [mkReq OpenAIChat "undefined Keep the summary concise (2-3 paragraphs)"]) /\
  Cls.summarizeDocument net_all_up no_keys "doc" "bogus" "short"
    = (Ok (Cls.getMockSummary "comprehensive"), []).
Proof. split; reflexivity. Qed.

(** C9 (amended): for a [summaryType] outside comprehensive, executive,
    key-points and timeline, [summarizeDocument] raises no error and still calls
    the first configured provider (OpenAI if its key is set, else Gemini).  If
    the type is not a name inherited from [Object.prototype], the prompt starts
    with "undefined" and the mock path gives the comprehensive mock summary; for
    an inherited name (e.g. toString) the prompt starts with the text of the
    inherited value and the mock path returns that value itself. *)
Theorem unknown_summary_type_defaults : forall net cfg text st len,
  str_lookup st (Cls.prompts text) = None ->
  (proto_key st = false ->
   Cls.summaryPrompt text st len
     = "undefined " ++ js_to_string (prop_lookup len Cls.lengthInstructions) /\
   Cls.getMockSummary st = Cls.getMockSummary "comprehensive") /\
  (proto_key st = true ->
   Cls.summaryPrompt text st len
     = js_to_string (proto_prop st) ++ " " ++ js_to_string (prop_lookup len Cls.lengthInstructions) /\
   Cls.getMockSummary st = proto_prop st) /\
  (exists v, fst (Cls.summarizeDocument net cfg text st len) = Ok v) /\
  (str_truthy (Cls.openai_apiKey cfg) = true ->
   hd_error (snd (Cls.summarizeDocument net cfg text st len))
     = Some (mkReq OpenAIChat (Cls.summaryPrompt text st len))) /\
  (str_truthy (Cls.openai_apiKey cfg) = false ->
   str_truthy (Cls.gemini_apiKey cfg) = true ->
   hd_error (snd (Cls.summarizeDocument net cfg text st len))
     = Some (mkReq GeminiGenerate (Cls.summaryPrompt text st len))).
Proof.
  intros net cfg text st len H.
  pose proof (ClsFacts.summary_tables_unknown text st H) as Hm.
  split; [|split; [|split; [|split]]];
    [rewrite (ClsFacts.summaryPrompt_unknown text st len H), (ClsFacts.getMockSummary_unknown st Hm)..
    | | | ].
  - destruct (ClsFacts.proto_prop_cases st) as [[_ ->]|[-> _]]; [|discriminate].
    intros _; split; reflexivity.
  - destruct (ClsFacts.proto_prop_cases st) as [[-> _]|(_ & Ht & _)]; [discriminate|].
    intros _; split; [reflexivity|]. unfold js_or; rewrite Ht; reflexivity.
  - destruct (ClsFacts.summarizeDocument_result net cfg text st len) as (v & Hv & _); eauto.
  - intros Hk. unfold Cls.summarizeDocument; rewrite ClsFacts.try_provider_unfold, Hk.
    destruct (fst (Cls.summarizeWithOpenAI net _));
      cbn [snd]; rewrite ClsFacts.summarizeWithOpenAI_trace; reflexivity.
  - intros Hk Hg. unfold Cls.summarizeDocument; rewrite !ClsFacts.try_provider_unfold, Hk, Hg.
    destruct (fst (Cls.summarizeWithGemini net _));
      cbn [snd]; rewrite ClsFacts.summarizeWithGemini_trace; reflexivity.
Qed.

Lemma unknown_summary_type_defaults_witness :
  str_lookup "bogus" (Cls.prompts "doc") = None /\
  str_lookup "toString" (Cls.prompts "doc") = None /\
  hd_error (snd (Cls.summarizeDocument net_all_up both_keys "doc" "bogus" "short"))
    = Some (mkReq OpenAIChat (Cls.summaryPrompt "doc" "bogus" "short")) /\
  hd_error (snd (Cls.summarizeDocument net_all_up gemini_only_keys "doc" "bogus" "short"))
    = Some (mkReq GeminiGenerate (Cls.summaryPrompt "doc" "bogus" "short")) /\
  Cls.getMockSummary "toString" = native_fn "toString".
Proof.
  assert (H : str_lookup "bogus" (Cls.prompts "doc") = None) by reflexivity.
  assert (H' : str_lookup "toString" (Cls.prompts "doc") = None) by reflexivity.
  pose proof (unknown_summary_type_defaults net_all_up both_keys "doc" "bogus" "short" H)
    as (_ & _ & _ & Ho & _).
  pose proof (unknown_summary_type_defaults net_all_up gemini_only_keys "doc" "bogus" "short" H)
    as (_ & _ & _ & _ & Hg).
  pose proof (unknown_summary_type_defaults net_all_up no_keys "doc" "toString" "short" H')
    as (_ & Hp & _).
  split; [exact H|]. split; [exact H'|].
  split; [exact (Ho eq_refl)|]. split; [exact (Hg eq_refl eq_refl)|].
  exact (proj2 (Hp eq_refl)).
Defined.

(** C4 (as stated, refuted): the class module has no per-task table; with both
    OpenAI and Gemini configured its [askLegalQuestion] asks OpenAI first, the
    provider that comes first for summarization. *)
Lemma class_qa_tries_openai_first :
  Cls.askLegalQuestion net_all_up both_keys "q" ""
    = (Ok (JStr "A"), [mkReq OpenAIChat (Cls.legalQuestionPrompt "q" "")]).
Proof. reflexivity. Qed.

(** C4 (amended): in the object module, whenever Gemini and OpenAI are both
    available, [_selectBestAI] picks Gemini for legal_qa and OpenAI for
    summarization, and the first generation request of [askLegalQuestion], if
    any, goes to Gemini; the class module tries OpenAI first both for
    [askLegalQuestion] and for [summarizeDocument] whenever OpenAI has a key. *)
Theorem router_preference_table :
  (forall av,
   Obj.includes (Obj.ai av) "gemini" = true ->
   Obj.includes (Obj.ai av) "openai" = true ->
   Obj._selectBestAI av "legal_qa" = Some "gemini" /\
   Obj._selectBestAI av "summarization" = Some "openai" /\
   (forall net question ctx r,
      hd_error (generation_requests (snd (Obj.askLegalQuestion net av question ctx))) = Some r ->
      rq_endpoint r = GeminiGenerate)) /\
  (forall cfg,
   str_truthy (Cls.openai_apiKey cfg) = true ->
   (forall net question ctx,
      hd_error (snd (Cls.askLegalQuestion net cfg question ctx))
        = Some (mkReq OpenAIChat (Cls.legalQuestionPrompt question ctx))) /\
   (forall net text st len,
      hd_error (snd (Cls.summarizeDocument net cfg text st len))
        = Some (mkReq OpenAIChat (Cls.summaryPrompt text st len)))).
Proof.
  split.
  - intros av Hg Ho.
    split; [apply ObjFacts.selectBestAI_legal_qa; exact Hg|].
    split; [apply ObjFacts.selectBestAI_summarization; exact Ho|].
    intros net question ctx r Hr.
    unfold Obj.askLegalQuestion in Hr.
    rewrite ObjFacts.snd_catch_ret, (ObjFacts.selectBestAI_legal_qa av Hg) in Hr.
    cbv zeta in Hr. rewrite bind_unfold in Hr.
    destruct (fst (Obj.enhance_context net av ctx)) as [ec|e]; cbn [snd] in Hr.
    + rewrite ObjFacts.generation_requests_app, ObjFacts.enhance_context_generation in Hr.
      destruct (ObjFacts.answer_with_context_gemini_first net av question ec) as [rest Hrest].
      rewrite Hrest in Hr; cbn in Hr.
      injection Hr as <-; reflexivity.
    + rewrite ObjFacts.enhance_context_generation in Hr; discriminate.
  - intros cfg Hk; split.
    + intros. unfold Cls.askLegalQuestion; rewrite ClsFacts.try_provider_unfold, Hk.
      destruct (fst (Cls.summarizeWithOpenAI net (Cls.legalQuestionPrompt question ctx)));
        cbn [snd]; rewrite ClsFacts.summarizeWithOpenAI_trace; reflexivity.
    + intros. unfold Cls.summarizeDocument; rewrite ClsFacts.try_provider_unfold, Hk.
      destruct (fst (Cls.summarizeWithOpenAI net (Cls.summaryPrompt text st len)));
        cbn [snd]; rewrite ClsFacts.summarizeWithOpenAI_trace; reflexivity.
Qed.

Lemma router_preference_table_witness :
  Obj.includes (Obj.ai av_both_nlp) "gemini" = true /\
  Obj.includes (Obj.ai av_both_nlp) "openai" = true /\
  Obj._selectBestAI av_both_nlp "legal_qa" = Some "gemini" /\
  Obj._selectBestAI av_both_nlp "summarization" = Some "openai" /\
  str_truthy (Cls.openai_apiKey both_keys) = true /\
  hd_error (snd (Cls.askLegalQuestion net_all_up both_keys "q" ""))
    = Some (mkReq OpenAIChat (Cls.legalQuestionPrompt "q" "")).
Proof.
  assert (Hg : Obj.includes (Obj.ai av_both_nlp) "gemini" = true) by reflexivity.
  assert (Ho : Obj.includes (Obj.ai av_both_nlp) "openai" = true) by reflexivity.
  assert (Hk : str_truthy (Cls.openai_apiKey both_keys) = true) by reflexivity.
  destruct (proj1 router_preference_table av_both_nlp Hg Ho) as (H1 & H2 & _).
  split; [exact Hg|]. split; [exact Ho|]. split; [exact H1|]. split; [exact H2|].
  split; [exact Hk|].
  exact (proj1 (proj2 router_preference_table both_keys Hk) net_all_up "q" "").
Defined.




(** C8 (as stated, refuted): the object module routes with the snapshot taken by
    [initializeServices]; after [setAPIKeys] sets a Gemini key, the configuration
    has it but the snapshot still lists no AI service and [_selectBestAI]
    returns [null]. *)
Lemma services_snapshot_stale :
  let st1 := fst (Obj.initializeServices (Obj.mkState empty_api_config initial_services)) in
  let st2 := Obj.setAPIKeys keys_gemini_only st1 in
  Obj.GEMINI_API_KEY (Obj.API_CONFIG st2) = "AIza-2" /\
  Obj.includes (Obj.ai (Obj.services_of (Obj.API_CONFIG st2))) "gemini" = true /\
  Obj.ai (Obj.availableServices st2) = [] /\
  Obj._selectBestAI (Obj.availableServices st2) "legal_qa" = None.
Proof. cbv zeta; repeat split; reflexivity. Qed.

(** C8 (amended): the class's [getAvailableAPIs] lists a provider exactly when
    its key is currently non-empty, and it is pure; the object module's snapshot
    lists an AI exactly when its key is non-empty at the time of
    [initializeServices], which recomputes it from the configuration, while
    [setAPIKeys] leaves the snapshot unchanged. *)
Theorem availability_from_configuration :
  (forall cfg,
   Obj.includes (Cls.getAvailableAPIs cfg) "OpenAI" = str_truthy (Cls.openai_apiKey cfg) /\
   Obj.includes (Cls.getAvailableAPIs cfg) "Gemini" = str_truthy (Cls.gemini_apiKey cfg) /\
   Obj.includes (Cls.getAvailableAPIs cfg) "Hugging Face" = str_truthy (Cls.huggingface_apiKey cfg)) /\
  (forall c,
   Obj.includes (Obj.ai (Obj.services_of c)) "openai" = str_truthy (Obj.OPENAI_API_KEY c) /\
   Obj.includes (Obj.ai (Obj.services_of c)) "gemini" = str_truthy (Obj.GEMINI_API_KEY c) /\
   Obj.includes (Obj.ai (Obj.services_of c)) "anthropic" = str_truthy (Obj.ANTHROPIC_API_KEY c) /\
   Obj.includes (Obj.ai (Obj.services_of c)) "huggingface" = str_truthy (Obj.HUGGINGFACE_API_KEY c)) /\
  (forall st,
   snd (Obj.initializeServices st) = Obj.services_of (Obj.API_CONFIG st) /\
   Obj.availableServices (fst (Obj.initializeServices st)) = Obj.services_of (Obj.API_CONFIG st)) /\
  (forall keys st, Obj.availableServices (Obj.setAPIKeys keys st) = Obj.availableServices st).
Proof.
  split; [|split; [|split]].
  - intros cfg; unfold Cls.getAvailableAPIs, Obj.includes.
    destruct (str_truthy (Cls.openai_apiKey cfg)), (str_truthy (Cls.gemini_apiKey cfg)),
             (str_truthy (Cls.huggingface_apiKey cfg)); repeat split.
  - intros c; unfold Obj.services_of, Obj.includes; cbn [Obj.ai].
    destruct (str_truthy (Obj.OPENAI_API_KEY c)), (str_truthy (Obj.GEMINI_API_KEY c)),
             (str_truthy (Obj.ANTHROPIC_API_KEY c)), (str_truthy (Obj.HUGGINGFACE_API_KEY c));
      repeat split.
  - intros st; split; reflexivity.
  - intros keys st; reflexivity.
Qed.

(** * Further properties of the code *)

(** ** Helper facts *)

Lemma substring_0_idem n s : substring 0 n (substring 0 n s) = substring 0 n s.
Proof.
  revert n; induction s as [|c s IH]; intros [|n]; cbn; try reflexivity.
  rewrite IH; reflexivity.
Qed.

Lemma includes_In l x : Obj.includes l x = true -> In x l.
Proof.
  unfold Obj.includes; intros H; apply existsb_exists in H as (y & Hy & He).
  apply String.eqb_eq in He; subst; exact Hy.
Qed.

(** ** The class module *)

(** [isConfigured()] is truthy exactly when [getAvailableAPIs()] is non-empty. *)
Theorem isConfigured_iff_some_available : forall cfg,
  str_truthy (Cls.isConfigured cfg) = negb (Nat.eqb (length (Cls.getAvailableAPIs cfg)) 0).
Proof.
  intros cfg; unfold Cls.isConfigured, Cls.getAvailableAPIs.
  destruct (str_truthy (Cls.openai_apiKey cfg)) eqn:E1; [rewrite E1; reflexivity|].
  destruct (str_truthy (Cls.gemini_apiKey cfg)) eqn:E2; [rewrite E2; reflexivity|].
  destruct (str_truthy (Cls.huggingface_apiKey cfg)); reflexivity.
Qed.

(** [testAPIConnection()] sends one "Test prompt" request per configured provider,
    OpenAI first, and reports a provider as Connected exactly when its call did
    not throw, whatever the answer holds; unconfigured providers are absent. *)
Theorem testAPIConnection_reports : forall net cfg,
  Cls.testAPIConnection net cfg =
  (Ok (JObj (app
     (if str_truthy (Cls.openai_apiKey cfg)
      then [("openai", JStr (match fst (Cls.summarizeWithOpenAI net "Test prompt") with
                             | Ok _ => "Connected" | Throw _ => "Failed" end))]
      else [])
     (if str_truthy (Cls.gemini_apiKey cfg)
      then [("gemini", JStr (match fst (Cls.summarizeWithGemini net "Test prompt") with
                             | Ok _ => "Connected" | Throw _ => "Failed" end))]
      else []))),
   app (if str_truthy (Cls.openai_apiKey cfg) then [mkReq OpenAIChat "Test prompt"] else [])
       (if str_truthy (Cls.gemini_apiKey cfg) then [mkReq GeminiGenerate "Test prompt"] else [])).
Proof.
  intros net cfg; unfold Cls.testAPIConnection.
  assert (Hr1 : Cls.summarizeWithOpenAI net "Test prompt"
                = (fst (Cls.summarizeWithOpenAI net "Test prompt"), [mkReq OpenAIChat "Test prompt"]))
    by (rewrite <- (ClsFacts.summarizeWithOpenAI_trace net); apply surjective_pairing).
  assert (Hr2 : Cls.summarizeWithGemini net "Test prompt"
                = (fst (Cls.summarizeWithGemini net "Test prompt"), [mkReq GeminiGenerate "Test prompt"]))
    by (rewrite <- (ClsFacts.summarizeWithGemini_trace net); apply surjective_pairing).
  rewrite Hr1, Hr2.
  destruct (fst (Cls.summarizeWithOpenAI net "Test prompt")), (fst (Cls.summarizeWithGemini net "Test prompt")),
           (str_truthy (Cls.openai_apiKey cfg)), (str_truthy (Cls.gemini_apiKey cfg)); reflexivity.
Qed.

Lemma forEach_entity_objects fss : forall p o l d r,
  Cls.forEach_entity (map JObj fss) p o l d r
  = ret (Cls.entities_obj (app p (words_labelled "PER" fss)) (app o (words_labelled "ORG" fss))
                          (app l (words_labelled "LOC" fss)) d (app r (words_labelled "MISC" fss))).
Proof.
  induction fss as [|fs fss IH]; intros; cbn.
  - rewrite !app_nil_r; reflexivity.
  - unfold words_labelled in *; cbn.
    destruct (assoc_lookup "entity_group" fs) as [| | | |s| | |] eqn:El; cbn [js_eq_str];
      try (rewrite IH; reflexivity).
    destruct (String.eqb_spec s "PER") as [->|];
      [cbn; rewrite IH, <- app_assoc; reflexivity|].
    destruct (String.eqb_spec s "ORG") as [->|];
      [cbn; rewrite IH, <- app_assoc; reflexivity|].
    destruct (String.eqb_spec s "LOC") as [->|];
      [cbn; rewrite IH, <- app_assoc; reflexivity|].
    destruct (String.eqb_spec s "MISC") as [->|];
      [cbn; rewrite IH, <- app_assoc; reflexivity|].
    rewrite IH; reflexivity.
Qed.

(** On an array of objects, [processEntityResponse] files each entity's [word]
    under persons, organizations, locations or legal_refs by its label PER, ORG,
    LOC or MISC, in input order; other labels are dropped and [dates] stays
    empty. *)
Theorem processEntityResponse_groups : forall fss,
  Cls.processEntityResponse (JArr (map JObj fss))
  = ret (Cls.entities_obj (words_labelled "PER" fss) (words_labelled "ORG" fss)
                          (words_labelled "LOC" fss) [] (words_labelled "MISC" fss)).
Proof. intros fss; apply forEach_entity_objects. Qed.

(** ** Configuration ([src/setup-api-keys.js]) *)

(** [validateAPIKeys()] succeeds exactly when some AI key (OpenAI, Gemini,
    Anthropic, Hugging Face) and the Google Translate key are non-empty. *)
Theorem validateAPIKeys_iff : forall c,
  Obj.validateAPIKeys c
  = (str_truthy (Obj.OPENAI_API_KEY c) || str_truthy (Obj.GEMINI_API_KEY c)
     || str_truthy (Obj.ANTHROPIC_API_KEY c) || str_truthy (Obj.HUGGINGFACE_API_KEY c))
    && str_truthy (Obj.GOOGLE_TRANSLATE_API_KEY c).
Proof.
  intros c; unfold Obj.validateAPIKeys.
  destruct (str_truthy (Obj.OPENAI_API_KEY c)), (str_truthy (Obj.GEMINI_API_KEY c)),
           (str_truthy (Obj.ANTHROPIC_API_KEY c)), (str_truthy (Obj.HUGGINGFACE_API_KEY c)),
           (str_truthy (Obj.GOOGLE_TRANSLATE_API_KEY c)); reflexivity.
Qed.

(** ** The router of the object module *)

(** For a task type that is not a name inherited from [Object.prototype],
    [_selectBestAI] only ever returns an available service, and on a snapshot
    built by [initializeServices] it returns [null] exactly when no AI service
    is available. *)
Theorem selectBestAI_available : forall av taskType s c taskType',
  proto_key taskType = false -> proto_key taskType' = false ->
  (Obj._selectBestAI av taskType = Some s -> In s (Obj.ai av)) /\
  (Obj._selectBestAI (Obj.services_of c) taskType' = None <-> Obj.ai (Obj.services_of c) = []).
Proof.
  intros av taskType s c taskType' _ _; split.
  - unfold Obj._selectBestAI.
    destruct (find _ _) as [a|] eqn:F.
    + intros [= <-]. apply find_some in F as [_ F]. apply includes_In; exact F.
    + destruct (Obj.ai av) as [|x l]; cbn; [discriminate|]. intros [= <-]; left; reflexivity.
  - unfold Obj._selectBestAI.
    destruct (find _ _) as [a|] eqn:F.
    + split; [discriminate|]. intros Hn. apply find_some in F as [_ F].
      apply includes_In in F. rewrite Hn in F; contradiction.
    + destruct (Obj.ai (Obj.services_of c)); cbn; split; congruence.
Qed.

Lemma set_if_truthy k old :
  str_truthy (Obj.set_if k old) = str_truthy k || str_truthy old.
Proof. unfold Obj.set_if; destruct (str_truthy k) eqn:E; [rewrite E|]; reflexivity. Qed.

Lemma set_if_idem k old : Obj.set_if k (Obj.set_if k old) = Obj.set_if k old.
Proof. unfold Obj.set_if; destruct (str_truthy k); reflexivity. Qed.

Lemma validate_eq c :
  Obj.validateAPIKeys c
  = (str_truthy (Obj.OPENAI_API_KEY c) || str_truthy (Obj.GEMINI_API_KEY c)
     || str_truthy (Obj.ANTHROPIC_API_KEY c) || str_truthy (Obj.HUGGINGFACE_API_KEY c))
    && str_truthy (Obj.GOOGLE_TRANSLATE_API_KEY c).
Proof.
  unfold Obj.validateAPIKeys.
  destruct (str_truthy (Obj.OPENAI_API_KEY c)), (str_truthy (Obj.GEMINI_API_KEY c)),
           (str_truthy (Obj.ANTHROPIC_API_KEY c)), (str_truthy (Obj.HUGGINGFACE_API_KEY c)),
           (str_truthy (Obj.GOOGLE_TRANSLATE_API_KEY c)); reflexivity.
Qed.

(** A configuration [c'] that keeps every non-empty field of [c] non-empty. *)
Lemma keeps_fields_validate c c' :
  (forall i, str_truthy (nth i (config_fields c) "") = true ->
             str_truthy (nth i (config_fields c') "") = true) ->
  Obj.validateAPIKeys c = true -> Obj.validateAPIKeys c' = true.
Proof.
  intros H; rewrite !validate_eq.
  pose proof (H 0) as H0; pose proof (H 1) as H1; pose proof (H 2) as H2;
  pose proof (H 6) as H6; pose proof (H 7) as H7; cbn [nth config_fields] in *.
  intros Hv; apply andb_true_iff in Hv as [Ha Ht].
  rewrite (H2 Ht), andb_true_r.
  repeat rewrite orb_true_iff in *. intuition.
Qed.

Ltac fields_kept :=
  let i := fresh "i" in
  intros i; destruct i as [|[|[|[|[|[|[|[|i]]]]]]]]; cbn [nth config_fields];
  [..| destruct i; cbn; discriminate];
  cbn [Obj.OPENAI_API_KEY Obj.GEMINI_API_KEY Obj.GOOGLE_TRANSLATE_API_KEY
       Obj.GOOGLE_DOCUMENT_AI_API_KEY Obj.GOOGLE_DOCUMENT_AI_PROJECT_ID
       Obj.GOOGLE_NATURAL_LANGUAGE_API_KEY Obj.ANTHROPIC_API_KEY Obj.HUGGINGFACE_API_KEY];
  rewrite ?set_if_truthy; intros ->; rewrite ?orb_true_r; reflexivity.

Lemma setAPIKeys_keeps_fields keys st :
  forall i, str_truthy (nth i (config_fields (Obj.API_CONFIG st)) "") = true ->
            str_truthy (nth i (config_fields (Obj.API_CONFIG (Obj.setAPIKeys keys st))) "") = true.
Proof. unfold Obj.setAPIKeys; cbn [Obj.API_CONFIG]; fields_kept. Qed.

(** [setAPIKeys] never empties a configured field (an empty key in [keys] keeps
    the old value), so it never turns a valid configuration invalid; applying
    the same keys twice is the same as once, and the services snapshot is not
    touched. *)
Theorem setAPIKeys_monotone : forall keys st,
  (forall i, str_truthy (nth i (config_fields (Obj.API_CONFIG st)) "") = true ->
             str_truthy (nth i (config_fields (Obj.API_CONFIG (Obj.setAPIKeys keys st))) "") = true) /\
  (Obj.validateAPIKeys (Obj.API_CONFIG st) = true -> Obj.setAPIKeys_return keys st = true) /\
  Obj.setAPIKeys keys (Obj.setAPIKeys keys st) = Obj.setAPIKeys keys st.
Proof.
  intros keys st; split; [apply setAPIKeys_keeps_fields|split].
  - apply keeps_fields_validate, setAPIKeys_keeps_fields.
  - unfold Obj.setAPIKeys; cbn -[Obj.set_if]; rewrite !set_if_idem; reflexivity.
Qed.

Lemma loadAPIKeys_keeps_fields env c :
  forall i, str_truthy (nth i (config_fields c) "") = true ->
            str_truthy (nth i (config_fields (Obj.loadAPIKeys_config env c)) "") = true.
Proof.
  unfold Obj.loadAPIKeys_config.
  destruct (Obj.has_require env && Obj.dotenv_loads env), (Obj.has_window env);
    cbn [Obj.API_CONFIG Obj.OPENAI_API_KEY Obj.GEMINI_API_KEY Obj.GOOGLE_TRANSLATE_API_KEY
       Obj.GOOGLE_DOCUMENT_AI_API_KEY Obj.GOOGLE_DOCUMENT_AI_PROJECT_ID
       Obj.GOOGLE_NATURAL_LANGUAGE_API_KEY Obj.ANTHROPIC_API_KEY Obj.HUGGINGFACE_API_KEY];
    fields_kept.
Qed.

(** [loadAPIKeys()] never empties a configured field and so never turns a valid
    configuration invalid; in the same environment a second call changes
    nothing; it leaves the services snapshot alone; and without a working
    dotenv the Document AI project id is never changed (localStorage is not
    read for it). *)
Theorem loadAPIKeys_monotone_idempotent : forall env st,
  (forall i, str_truthy (nth i (config_fields (Obj.API_CONFIG st)) "") = true ->
             str_truthy (nth i (config_fields (Obj.API_CONFIG (fst (Obj.loadAPIKeys env st)))) "") = true) /\
  (Obj.validateAPIKeys (Obj.API_CONFIG st) = true -> snd (Obj.loadAPIKeys env st) = true) /\
  fst (Obj.loadAPIKeys env (fst (Obj.loadAPIKeys env st))) = fst (Obj.loadAPIKeys env st) /\
  Obj.availableServices (fst (Obj.loadAPIKeys env st)) = Obj.availableServices st /\
  (Obj.has_require env && Obj.dotenv_loads env = false ->
   Obj.GOOGLE_DOCUMENT_AI_PROJECT_ID (Obj.API_CONFIG (fst (Obj.loadAPIKeys env st)))
   = Obj.GOOGLE_DOCUMENT_AI_PROJECT_ID (Obj.API_CONFIG st)).
Proof.
  intros env st; split; [apply loadAPIKeys_keeps_fields|split; [|split; [|split]]].
  - apply keeps_fields_validate, loadAPIKeys_keeps_fields.
  - unfold Obj.loadAPIKeys, Obj.loadAPIKeys_config; cbn [fst Obj.API_CONFIG Obj.availableServices].
    destruct (Obj.has_require env && Obj.dotenv_loads env), (Obj.has_window env);
      cbn -[Obj.set_if]; unfold Obj.set_if;
      repeat match goal with |- context [str_truthy ?k] => destruct (str_truthy k) eqn:? end;
      try reflexivity; congruence.
  - reflexivity.
  - intros H; unfold Obj.loadAPIKeys, Obj.loadAPIKeys_config; rewrite H; cbn.
    destruct (Obj.has_window env); reflexivity.
Qed.

Lemma selectBestAI_available_witness :
  proto_key "legal_qa" = false /\ proto_key "search" = false /\
  Obj._selectBestAI av_both "legal_qa" = Some "gemini" /\ In "gemini" (Obj.ai av_both) /\
  Obj.ai (Obj.services_of empty_api_config) = [] /\
  Obj._selectBestAI (Obj.services_of empty_api_config) "search" = None.
Proof.
  assert (H : Obj._selectBestAI av_both "legal_qa" = Some "gemini") by reflexivity.
  assert (He : Obj.ai (Obj.services_of empty_api_config) = []) by reflexivity.
  assert (Hq : proto_key "legal_qa" = false) by reflexivity.
  assert (Hs : proto_key "search" = false) by reflexivity.
  destruct (selectBestAI_available av_both "legal_qa" "gemini" empty_api_config "search" Hq Hs)
    as [H1 H2].
  split; [exact Hq|]. split; [exact Hs|].
  split; [exact H|split; [exact (H1 H)|split; [exact He|exact (proj2 H2 He)]]].
Defined.

Lemma setAPIKeys_monotone_witness :
  str_truthy (nth 0 (config_fields (Obj.API_CONFIG st_valid)) "") = true /\
  str_truthy (nth 0 (config_fields (Obj.API_CONFIG (Obj.setAPIKeys keys_gemini_only st_valid))) "") = true /\
  Obj.validateAPIKeys (Obj.API_CONFIG st_valid) = true /\
  Obj.setAPIKeys_return keys_gemini_only st_valid = true.
Proof.
  assert (H0 : str_truthy (nth 0 (config_fields (Obj.API_CONFIG st_valid)) "") = true) by reflexivity.
  assert (Hv : Obj.validateAPIKeys (Obj.API_CONFIG st_valid) = true) by reflexivity.
  destruct (setAPIKeys_monotone keys_gemini_only st_valid) as (Hf & Hr & _).
  split; [exact H0|split; [exact (Hf 0 H0)|split; [exact Hv|exact (Hr Hv)]]].
Defined.

Lemma loadAPIKeys_monotone_idempotent_witness :
  str_truthy (nth 0 (config_fields (Obj.API_CONFIG st_valid)) "") = true /\
  str_truthy (nth 0 (config_fields (Obj.API_CONFIG (fst (Obj.loadAPIKeys env_browser st_valid)))) "") = true /\
  Obj.validateAPIKeys (Obj.API_CONFIG st_valid) = true /\
  snd (Obj.loadAPIKeys env_browser st_valid) = true /\
  Obj.has_require env_browser && Obj.dotenv_loads env_browser = false /\
  Obj.GOOGLE_DOCUMENT_AI_PROJECT_ID (Obj.API_CONFIG (fst (Obj.loadAPIKeys env_browser st_valid)))
  = Obj.GOOGLE_DOCUMENT_AI_PROJECT_ID (Obj.API_CONFIG st_valid).
Proof.
  assert (H0 : str_truthy (nth 0 (config_fields (Obj.API_CONFIG st_valid)) "") = true) by reflexivity.
  assert (Hv : Obj.validateAPIKeys (Obj.API_CONFIG st_valid) = true) by reflexivity.
  assert (Hn : Obj.has_require env_browser && Obj.dotenv_loads env_browser = false) by reflexivity.
  destruct (loadAPIKeys_monotone_idempotent env_browser st_valid) as (Hf & Hr & _ & _ & Hp).
  split; [exact H0|split; [exact (Hf 0 H0)|split; [exact Hv|split; [exact (Hr Hv)|split; [exact Hn|exact (Hp Hn)]]]]].
Defined.

(** ** The object module: request flow *)

Lemma callOpenAI_trace net p : snd (Obj._callOpenAI net p) = [mkReq OpenAIChat p].
Proof. apply makeAPICall_then_trace; intros; auto 20 with silent. Qed.

Lemma callAnthropic_trace net p : snd (Obj._callAnthropic net p) = [mkReq AnthropicMessages p].
Proof. apply makeAPICall_then_trace; intros; auto 20 with silent. Qed.

Lemma callHuggingFace_trace net p t :
  snd (Obj._callHuggingFace net p t)
  = [mkReq (HuggingFaceModel (if String.eqb t "summarization" then Obj.SUMMARIZATION_MODEL
                              else Obj.LEGAL_MODEL)) p].
Proof.
  apply makeAPICall_then_trace; intros a.
  apply silent_bind; [destruct a; auto with silent|intros d].
  apply silent_bind; [auto with silent|intros g; destruct (truthy g); auto with silent].
Qed.

(** One provider call sends at most one request. *)
Lemma callAIService_at_most_one net s p t :
  length (snd (Obj._callAIService net s p t)) <= 1.
Proof.
  unfold Obj._callAIService; destruct s as [s|]; [|cbn; lia].
  destruct (String.eqb s "openai"); [rewrite callOpenAI_trace; cbn; lia|].
  destruct (String.eqb s "gemini"); [rewrite ObjFacts.callGemini_trace; cbn; lia|].
  destruct (String.eqb s "anthropic"); [rewrite callAnthropic_trace; cbn; lia|].
  destruct (String.eqb s "huggingface"); [rewrite callHuggingFace_trace; cbn; lia|].
  cbn; lia.
Qed.

(** [_analyzeWithNaturalLanguage] always resolves to an object. *)
Lemma analyze_object net text :
  exists fs, fst (Obj._analyzeWithNaturalLanguage net text) = Ok (JObj fs).
Proof.
  unfold Obj._analyzeWithNaturalLanguage, Obj.nl_body, makeAPICall.
  destruct (net _) as [|[] [j|]]; cbn; try destruct j; cbn; eexists; reflexivity.
Qed.

Lemma fst_bind_ok {A B} (m : M A) (f : A -> M B) v :
  fst (bind m f) = Ok v -> exists a, fst m = Ok a /\ fst (f a) = Ok v.
Proof. rewrite fst_bind; destruct (fst m) as [a|e]; [eauto|discriminate]. Qed.

(** When [askLegalQuestion]'s selected provider fails at the transport level
    (the call throws), the error reaches the outer [catch]: the backup
    providers are never tried and the canned answer is returned. *)
Theorem ask_primary_failure_skips_backups : forall net av question ctx ec,
  fst (Obj.enhance_context net av ctx) = Ok ec ->
  throws (Obj._callAIService net (Obj._selectBestAI av "legal_qa")
            (Obj._buildLegalPrompt question ec) "legal_qa") ->
  Obj.askLegalQuestion net av question ctx
  = (Ok (JStr (Obj._getFallbackLegalResponse question)),
     app (snd (Obj.enhance_context net av ctx))
         (snd (Obj._callAIService net (Obj._selectBestAI av "legal_qa")
                 (Obj._buildLegalPrompt question ec) "legal_qa"))).
Proof.
  intros net av question ctx ec He [e Ht].
  unfold Obj.askLegalQuestion; cbv zeta.
  rewrite catch_unfold, !bind_unfold, He.
  unfold Obj.answer_with_context; cbv zeta.
  rewrite !bind_unfold, Ht; cbn [fst snd ret].
  rewrite !app_nil_r; reflexivity.
Qed.

Lemma ask_primary_failure_skips_backups_witness :
  fst (Obj.enhance_context net_gemini_down av_both "ctx") = Ok "ctx" /\
  throws (Obj._callAIService net_gemini_down (Obj._selectBestAI av_both "legal_qa")
            (Obj._buildLegalPrompt "q" "ctx") "legal_qa") /\
  fst (Obj._callOpenAI net_gemini_down (Obj._buildLegalPrompt "q" "ctx")) = Ok (JStr "A") /\
  Obj.askLegalQuestion net_gemini_down av_both "q" "ctx"
  = (Ok (JStr (Obj._getFallbackLegalResponse "q")),
     app (snd (Obj.enhance_context net_gemini_down av_both "ctx"))
         (snd (Obj._callAIService net_gemini_down (Obj._selectBestAI av_both "legal_qa")
                 (Obj._buildLegalPrompt "q" "ctx") "legal_qa"))).
Proof.
  assert (He : fst (Obj.enhance_context net_gemini_down av_both "ctx") = Ok "ctx") by reflexivity.
  assert (Ht : throws (Obj._callAIService net_gemini_down (Obj._selectBestAI av_both "legal_qa")
                         (Obj._buildLegalPrompt "q" "ctx") "legal_qa"))
    by (exists NetworkError; reflexivity).
  split; [exact He|split; [exact Ht|split; [reflexivity|]]].
  exact (ask_primary_failure_skips_backups net_gemini_down av_both "q" "ctx" "ctx" He Ht).
Defined.

(** The same holds for [summarizeDocument]: a throwing primary call skips the
    backups and yields the canned summary; the Hugging Face stub sends
    nothing. *)
Theorem summarize_primary_failure_skips_backups : forall net w av text st len ea,
  fst (Obj.summary_analysis net w av text) = Ok ea ->
  throws (Obj._callAIService net (Obj._selectBestAI av "summarization")
            (Obj._buildSummarizationPrompt text st len ea) "summarization") ->
  Obj.summarizeDocument net w av text st len
  = (Ok (JStr (Obj._getFallbackSummary st len)),
     app (snd (Obj.summary_analysis net w av text))
         (snd (Obj._callAIService net (Obj._selectBestAI av "summarization")
                 (Obj._buildSummarizationPrompt text st len ea) "summarization"))).
Proof.
  intros net w av text st len ea He [e Ht].
  unfold Obj.summarizeDocument; cbv zeta.
  rewrite catch_unfold, (bind_unfold (Obj.summary_analysis net w av text)), He; cbv beta iota.
  destruct (Obj.includes (Obj.ai av) "huggingface");
    cbn [andb Obj.USE_SPECIALIZED_MODELS Obj._summarizeWithHuggingFace catch ret bind truthy negb].
  all: rewrite (bind_unfold (Obj._callAIService net _ _ _)), Ht; cbn [fst snd app].
  all: rewrite !app_nil_r; reflexivity.
Qed.

Lemma summarize_primary_failure_skips_backups_witness :
  fst (Obj.summary_analysis net_openai_down (fun _ => "neutral") av_both "doc") = Ok "" /\
  throws (Obj._callAIService net_openai_down (Obj._selectBestAI av_both "summarization")
            (Obj._buildSummarizationPrompt "doc" "brief" "short" "") "summarization") /\
  fst (Obj._callGemini net_openai_down (Obj._buildSummarizationPrompt "doc" "brief" "short" ""))
    = Ok (JStr "G") /\
  Obj.summarizeDocument net_openai_down (fun _ => "neutral") av_both "doc" "brief" "short"
  = (Ok (JStr (Obj._getFallbackSummary "brief" "short")),
     app (snd (Obj.summary_analysis net_openai_down (fun _ => "neutral") av_both "doc"))
         (snd (Obj._callAIService net_openai_down (Obj._selectBestAI av_both "summarization")
                 (Obj._buildSummarizationPrompt "doc" "brief" "short" "") "summarization"))).
Proof.
  assert (He : fst (Obj.summary_analysis net_openai_down (fun _ => "neutral") av_both "doc") = Ok "")
    by reflexivity.
  assert (Ht : throws (Obj._callAIService net_openai_down (Obj._selectBestAI av_both "summarization")
                         (Obj._buildSummarizationPrompt "doc" "brief" "short" "") "summarization"))
    by (exists NetworkError; reflexivity).
  split; [exact He|split; [exact Ht|split; [reflexivity|]]].
  exact (summarize_primary_failure_skips_backups net_openai_down (fun _ => "neutral") av_both
           "doc" "brief" "short" "" He Ht).
Defined.

(** If the NLP pre-processing step of [summarizeDocument] throws (a malformed
    Natural Language answer), no provider is asked at all: the canned summary
    is returned and only the analysis request has been sent. *)
Theorem summarize_analysis_failure_no_generation : forall net w av text st len,
  throws (Obj.summary_analysis net w av text) ->
  Obj.summarizeDocument net w av text st len
  = (Ok (JStr (Obj._getFallbackSummary st len)), snd (Obj.summary_analysis net w av text)).
Proof.
  intros net w av text st len [e He].
  unfold Obj.summarizeDocument; cbv zeta.
  rewrite catch_unfold, bind_unfold, He; cbn [fst snd ret].
  rewrite app_nil_r; reflexivity.
Qed.

Lemma summarize_analysis_failure_no_generation_witness :
  throws (Obj.summary_analysis net_nl_bad_entities (fun _ => "neutral") av_both_nlp "doc") /\
  fst (Obj._callOpenAI net_nl_bad_entities "p") = Ok (JStr "A") /\
  Obj.summarizeDocument net_nl_bad_entities (fun _ => "neutral") av_both_nlp "doc" "brief" "short"
  = (Ok (JStr (Obj._getFallbackSummary "brief" "short")),
     snd (Obj.summary_analysis net_nl_bad_entities (fun _ => "neutral") av_both_nlp "doc")).
Proof.
  assert (H : throws (Obj.summary_analysis net_nl_bad_entities (fun _ => "neutral") av_both_nlp "doc"))
    by (exists TypeError; reflexivity).
  split; [exact H|split; [reflexivity|]].
  exact (summarize_analysis_failure_no_generation net_nl_bad_entities (fun _ => "neutral")
           av_both_nlp "doc" "brief" "short" H).
Defined.

(** [compareDocuments] never throws; it sends exactly the requests of its one
    provider call (at most one); with no AI service available it returns its
    failure message without sending anything; and only the first 2000
    characters of each document matter. *)
Theorem compareDocuments_behaviour : forall net av d1 d2,
  (exists v, fst (Obj.compareDocuments net av d1 d2) = Ok v) /\
  snd (Obj.compareDocuments net av d1 d2)
    = snd (Obj._callAIService net (Obj._selectBestAI av "comparison")
             (Obj.comparison_prompt d1 d2) "comparison") /\
  length (snd (Obj.compareDocuments net av d1 d2)) <= 1 /\
  (Obj.ai av = [] ->
   Obj.compareDocuments net av d1 d2
   = (Ok (JStr "Document comparison failed. Please configure AI services."), [])) /\
  Obj.compareDocuments net av d1 d2
  = Obj.compareDocuments net av (substring 0 2000 d1) (substring 0 2000 d2).
Proof.
  intros net av d1 d2.
  assert (Hs : snd (Obj.compareDocuments net av d1 d2)
               = snd (Obj._callAIService net (Obj._selectBestAI av "comparison")
                        (Obj.comparison_prompt d1 d2) "comparison"))
    by (unfold Obj.compareDocuments; apply ObjFacts.snd_catch_ret).
  split; [apply catch_ret_never_throws|split; [exact Hs|split; [|split]]].
  - rewrite Hs; apply callAIService_at_most_one.
  - intros H; unfold Obj.compareDocuments, Obj._selectBestAI; rewrite H; reflexivity.
  - unfold Obj.compareDocuments, Obj.comparison_prompt; rewrite !substring_0_idem; reflexivity.
Qed.

Lemma compareDocuments_behaviour_witness :
  Obj.ai initial_services = [] /\
  Obj.compareDocuments net_all_up initial_services "a" "b"
  = (Ok (JStr "Document comparison failed. Please configure AI services."), []).
Proof.
  assert (H : Obj.ai initial_services = []) by reflexivity.
  split; [exact H|].
  destruct (compareDocuments_behaviour net_all_up initial_services "a" "b") as (_ & _ & _ & He & _).
  exact (He H).
Defined.

(** [assessLegalRisk] sends the Natural Language request (when enabled) and then
    one provider call. If that call throws, the result is the error object with
    the error's message and the NLP part is dropped; otherwise the report holds
    the NLP sentiment and entities (or [null] when NLP is off), the provider's
    answer and the timestamp. It never throws. *)
Theorem assessLegalRisk_report : forall net now message av doc,
  exists fs, fst (Obj._analyzeWithNaturalLanguage net doc) = Ok (JObj fs) /\
  Obj.assessLegalRisk net now message av doc =
  (let call := Obj._callAIService net (Obj._selectBestAI av "risk_analysis")
                 (Obj.risk_prompt doc) "risk_analysis" in
   (match fst call with
    | Ok v =>
        Ok (JObj [("nlpAnalysis",
                   if Obj.nlp av
                   then JObj [("source", JStr "Natural Language Analysis");
                              ("sentiment", assoc_lookup "sentiment" fs);
                              ("entities", assoc_lookup "entities" fs)]
                   else JNull);
                  ("aiAssessment", v); ("timestamp", JStr now)])
    | Throw e => Ok (JObj [("error", JStr "Risk assessment failed"); ("details", message e)])
    end,
    app (if Obj.nlp av then [mkReq NaturalLanguageAnalyze (substring 0 10000 doc)] else [])
        (snd call))).
Proof.
  intros net now message av doc.
  destruct (analyze_object net doc) as [fs Hfs]; exists fs; split; [exact Hfs|].
  unfold Obj.assessLegalRisk; cbv zeta.
  destruct (Obj.nlp av).
  - assert (Ha : Obj._analyzeWithNaturalLanguage net doc
                 = (Ok (JObj fs), [mkReq NaturalLanguageAnalyze (substring 0 10000 doc)]))
      by (rewrite <- (ObjFacts.analyze_trace net doc), <- Hfs; apply surjective_pairing).
    rewrite Ha.
    destruct (Obj._callAIService net _ _ _) as [[v|e] t]; cbn; rewrite ?app_nil_r; reflexivity.
  - destruct (Obj._callAIService net _ _ _) as [[v|e] t]; cbn; rewrite ?app_nil_r; reflexivity.
Qed.


(** ** The object module: prompts and formatting *)

(** Each prompt builder reads only a prefix of its document: 4000 characters
    for summaries, 3000 for search and risk analysis, 2000 of each document
    for comparisons. *)
Theorem prompts_read_prefix_only : forall text st len ea query doc d1 d2,
  Obj._buildSummarizationPrompt text st len ea
    = Obj._buildSummarizationPrompt (substring 0 4000 text) st len ea /\
  Obj._buildSearchPrompt query doc = Obj._buildSearchPrompt query (substring 0 3000 doc) /\
  Obj.risk_prompt doc = Obj.risk_prompt (substring 0 3000 doc) /\
  Obj.comparison_prompt d1 d2 = Obj.comparison_prompt (substring 0 2000 d1) (substring 0 2000 d2).
Proof.
  intros; unfold Obj._buildSummarizationPrompt, Obj._buildSearchPrompt, Obj.risk_prompt,
    Obj.comparison_prompt; rewrite !substring_0_idem; repeat split.
Qed.



(** ** Answers are never empty *)

Lemma js_or_truthy r s : truthy (JStr s) = true -> truthy (js_or r (JStr s)) = true.
Proof. unfold js_or; destruct (truthy r) eqn:E; [intros _; exact E|exact (fun H => H)]. Qed.

(** The object module's [askLegalQuestion] and [summarizeDocument] always
    resolve, and always to a truthy value: a provider's empty answer is
    replaced by the canned text. *)
Theorem answers_always_truthy : forall net w av question ctx text st len,
  (exists v, fst (Obj.askLegalQuestion net av question ctx) = Ok v /\ truthy v = true) /\
  (exists v, fst (Obj.summarizeDocument net w av text st len) = Ok v /\ truthy v = true).
Proof.
  intros net w av question ctx text st len; split.
  - unfold Obj.askLegalQuestion; rewrite fst_catch.
    destruct (fst _) as [v|e] eqn:E; [|cbn; eexists; split; reflexivity].
    exists v; split; [reflexivity|].
    apply fst_bind_ok in E as (ec & _ & E).
    unfold Obj.answer_with_context in E; cbv zeta in E.
    apply fst_bind_ok in E as (r1 & _ & E).
    apply fst_bind_ok in E as (r2 & _ & E).
    cbn in E; injection E as <-; apply js_or_truthy; reflexivity.
  - unfold Obj.summarizeDocument; rewrite fst_catch.
    destruct (fst _) as [v|e] eqn:E; [|cbn; eexists; split; reflexivity].
    exists v; split; [reflexivity|].
    apply fst_bind_ok in E as (ea & _ & E).
    apply fst_bind_ok in E as (s1 & _ & E).
    apply fst_bind_ok in E as (s2 & _ & E).
    apply fst_bind_ok in E as (s3 & _ & E).
    cbn in E; injection E as <-; apply js_or_truthy; reflexivity.
Qed.

(** ** The object module: provider requests *)

Lemma callAIService_some_trace net b p t :
  snd (Obj._callAIService net (Some b) p t)
  = match service_endpoint b t with Some e => [mkReq e p] | None => [] end.
Proof.
  unfold Obj._callAIService, service_endpoint.
  destruct (String.eqb b "openai"); [apply callOpenAI_trace|].
  destruct (String.eqb b "gemini"); [apply ObjFacts.callGemini_trace|].
  destruct (String.eqb b "anthropic"); [apply callAnthropic_trace|].
  destruct (String.eqb b "huggingface"); [apply callHuggingFace_trace|reflexivity].
Qed.

Lemma service_endpoint_inj b b' t e :
  service_endpoint b t = Some e -> service_endpoint b' t = Some e -> b = b'.
Proof.
  unfold service_endpoint; intros H1 H2.
  repeat match goal with
         | H : context [String.eqb ?x ?y] |- _ => destruct (String.eqb_spec x y); [subst x|]
         end; congruence.
Qed.

Lemma service_endpoint_not_nl b t : service_endpoint b t <> Some NaturalLanguageAnalyze.
Proof.
  unfold service_endpoint.
  destruct (String.eqb b "openai"), (String.eqb b "gemini"), (String.eqb b "anthropic"),
           (String.eqb b "huggingface"); discriminate.
Qed.

Lemma selectBestAI_some_in av t s : Obj._selectBestAI av t = Some s -> In s (Obj.ai av).
Proof.
  unfold Obj._selectBestAI.
  destruct (find _ _) as [a|] eqn:F.
  - intros [= <-]. apply find_some in F as [_ F]. apply includes_In; exact F.
  - destruct (Obj.ai av) as [|x l]; cbn; [discriminate|]. intros [= <-]; left; reflexivity.
Qed.

Lemma BACKUP_AI_NoDup : NoDup Obj.BACKUP_AI.
Proof. repeat constructor; cbn; intuition discriminate. Qed.

(** The backup loop only asks available services other than the primary one,
    each listed service at most once. *)
Lemma backup_loop_requests net av s p t : forall bs resp,
  NoDup bs ->
  Forall (fun r => exists b, In b bs /\ In b (Obj.ai av) /\ s <> Some b /\
                             service_endpoint b t = Some (rq_endpoint r))
         (snd (Obj.backup_loop net av s p t bs resp)) /\
  NoDup (map rq_endpoint (snd (Obj.backup_loop net av s p t bs resp))).
Proof.
  induction bs as [|b bs IH]; intros resp Hnd; cbn [Obj.backup_loop]; [split; constructor|].
  inversion Hnd as [|? ? Hnin Hnd']; subst.
  assert (Hlift : forall l,
            Forall (fun r => exists b', In b' bs /\ In b' (Obj.ai av) /\ s <> Some b' /\
                                        service_endpoint b' t = Some (rq_endpoint r)) l ->
            Forall (fun r => exists b', In b' (b :: bs) /\ In b' (Obj.ai av) /\ s <> Some b' /\
                                        service_endpoint b' t = Some (rq_endpoint r)) l).
  { intros l; apply Forall_impl; intros r (b' & H1 & H2); exists b'; split; [right|]; assumption. }
  destruct (Obj.includes (Obj.ai av) b && _) eqn:Hc.
  2: { destruct (IH resp Hnd') as [HF HN]; split; [apply Hlift, HF|exact HN]. }
  apply andb_true_iff in Hc as [Hin Hne]; apply includes_In in Hin.
  assert (Hs : s <> Some b).
  { intros ->; rewrite String.eqb_refl in Hne; discriminate. }
  set (c := catch (let* v := Obj._callAIService net (Some b) p t in ret (Some v)) (fun _ => ret None)).
  assert (Hct : snd c = match service_endpoint b t with Some e => [mkReq e p] | None => [] end).
  { unfold c; rewrite ObjFacts.snd_catch_ret, ObjFacts.snd_bind_silent by (intros; apply silent_ret).
    apply callAIService_some_trace. }
  assert (Hstep : forall T,
            Forall (fun r => exists b', In b' bs /\ In b' (Obj.ai av) /\ s <> Some b' /\
                                        service_endpoint b' t = Some (rq_endpoint r)) T ->
            NoDup (map rq_endpoint T) ->
            Forall (fun r => exists b', In b' (b :: bs) /\ In b' (Obj.ai av) /\ s <> Some b' /\
                                        service_endpoint b' t = Some (rq_endpoint r)) (app (snd c) T) /\
            NoDup (map rq_endpoint (app (snd c) T))).
  { intros T HF HN; rewrite Hct.
    destruct (service_endpoint b t) as [e|] eqn:He; cbn [app map]; [|split; [apply Hlift, HF|exact HN]].
    split.
    - constructor; [exists b; cbn; auto|apply Hlift, HF].
    - constructor; [|exact HN]. intros Hm.
      apply in_map_iff in Hm as (r & Hr & HrT). rewrite Forall_forall in HF.
      destruct (HF r HrT) as (b' & Hb' & _ & _ & He'). cbn in Hr; rewrite Hr in He'.
      apply Hnin; rewrite (service_endpoint_inj b b' t e He He'); exact Hb'. }
  rewrite bind_unfold.
  destruct (fst c) as [[v|]|e]; cbn [fst snd].
  - destruct (truthy v).
    + rewrite app_nil_r; cbn [snd ret].
      destruct (Hstep [] (Forall_nil _) (NoDup_nil _)) as [H1 H2]; rewrite app_nil_r in H1, H2; auto.
    + destruct (IH v Hnd') as [HF HN]; apply Hstep; assumption.
  - destruct (IH resp Hnd') as [HF HN]; apply Hstep; assumption.
  - destruct (Hstep [] (Forall_nil _) (NoDup_nil _)) as [H1 H2]; rewrite app_nil_r in H1, H2; auto.
Qed.

(** The primary call followed by nothing or by the backup loop. *)
Lemma primary_then_backups net av s p t T :
  (forall s', s = Some s' -> In s' (Obj.ai av)) ->
  (T = [] \/ exists resp, T = snd (Obj.backup_loop net av s p t Obj.BACKUP_AI resp)) ->
  NoDup (map rq_endpoint (app (snd (Obj._callAIService net s p t)) T)) /\
  Forall (fun r => exists b, In b (Obj.ai av) /\ service_endpoint b t = Some (rq_endpoint r))
         (app (snd (Obj._callAIService net s p t)) T).
Proof.
  intros Hs HT.
  assert (HB : Forall (fun r => exists b, In b Obj.BACKUP_AI /\ In b (Obj.ai av) /\ s <> Some b /\
                                          service_endpoint b t = Some (rq_endpoint r)) T /\
               NoDup (map rq_endpoint T)).
  { destruct HT as [->|[resp ->]]; [split; constructor|].
    apply backup_loop_requests, BACKUP_AI_NoDup. }
  destruct HB as [HF HN].
  assert (HF' : Forall (fun r => exists b, In b (Obj.ai av) /\ service_endpoint b t = Some (rq_endpoint r)) T).
  { eapply Forall_impl; [|exact HF]; intros r (b & _ & H2 & _ & H4); eauto. }
  destruct s as [s'|]; [|cbn; split; assumption].
  rewrite callAIService_some_trace.
  destruct (service_endpoint s' t) as [e|] eqn:He; cbn [app map]; [|split; assumption].
  split.
  - constructor; [|exact HN]. intros Hm.
    apply in_map_iff in Hm as (r & Hr & HrT). rewrite Forall_forall in HF.
    destruct (HF r HrT) as (b & _ & _ & Hne & Hb). cbn in Hr; rewrite Hr in Hb.
    apply Hne; rewrite (service_endpoint_inj s' b t e He Hb); reflexivity.
  - constructor; [exists s'; split; [apply Hs; reflexivity|exact He]|exact HF'].
Qed.

Lemma generation_requests_id (P : string -> Prop) t l :
  Forall (fun r => exists b, P b /\ service_endpoint b t = Some (rq_endpoint r)) l ->
  generation_requests l = l.
Proof.
  induction 1 as [|r l (b & _ & He) _ IH]; [reflexivity|].
  unfold generation_requests in *; cbn.
  destruct (rq_endpoint r) eqn:E; try (rewrite IH; reflexivity).
  exfalso; exact (service_endpoint_not_nl b t He).
Qed.

Lemma formatNLPAnalysis_silent w j : silent (Obj._formatNLPAnalysis w j).
Proof.
  unfold Obj._formatNLPAnalysis.
  destruct (negb (truthy j)); [apply silent_ret|].
  apply silent_bind; [apply silent_get|intros ents].
  destruct (negb (truthy ents)); [apply silent_ret|].
  destruct ents; try apply silent_throw.
  apply silent_bind; [apply ObjFacts.map_M_silent; intros; auto with silent|intros names].
  apply silent_bind; [apply silent_get|intros s].
  apply silent_bind; [destruct (is_nullish s); auto with silent|intros; apply silent_ret].
Qed.

Lemma summary_analysis_generation net w av text :
  generation_requests (snd (Obj.summary_analysis net w av text)) = [].
Proof.
  unfold Obj.summary_analysis; destruct (Obj.nlp av); [|reflexivity].
  rewrite ObjFacts.snd_bind_silent by (intros; apply formatNLPAnalysis_silent).
  rewrite ObjFacts.analyze_trace; reflexivity.
Qed.

(** Neither [askLegalQuestion] nor [summarizeDocument] of the object module
    sends two generation requests to the same endpoint (the primary service is
    never retried, each backup is asked at most once), and every generation
    request goes to a service listed in [availableServices.ai]. *)
Theorem provider_requests_distinct : forall net w av question ctx text st len,
  (NoDup (map rq_endpoint (generation_requests (snd (Obj.askLegalQuestion net av question ctx)))) /\
   Forall (fun r => exists b, In b (Obj.ai av) /\ service_endpoint b "legal_qa" = Some (rq_endpoint r))
          (generation_requests (snd (Obj.askLegalQuestion net av question ctx)))) /\
  (NoDup (map rq_endpoint (generation_requests (snd (Obj.summarizeDocument net w av text st len)))) /\
   Forall (fun r => exists b, In b (Obj.ai av) /\ service_endpoint b "summarization" = Some (rq_endpoint r))
          (generation_requests (snd (Obj.summarizeDocument net w av text st len)))).
Proof.
  intros net w av question ctx text st len.
  assert (Hfin : forall t l,
            NoDup (map rq_endpoint l) /\
            Forall (fun r => exists b, In b (Obj.ai av) /\ service_endpoint b t = Some (rq_endpoint r)) l ->
            NoDup (map rq_endpoint (generation_requests l)) /\
            Forall (fun r => exists b, In b (Obj.ai av) /\ service_endpoint b t = Some (rq_endpoint r))
                   (generation_requests l)).
  { intros t l [H1 H2]; rewrite (generation_requests_id _ t l H2); split; assumption. }
  split.
  - unfold Obj.askLegalQuestion; rewrite ObjFacts.snd_catch_ret; cbv zeta.
    rewrite bind_unfold.
    destruct (fst (Obj.enhance_context net av ctx)) as [ec|e]; cbn [snd];
      [|rewrite ObjFacts.enhance_context_generation; split; constructor].
    rewrite ObjFacts.generation_requests_app, ObjFacts.enhance_context_generation; cbn [app].
    apply Hfin.
    unfold Obj.answer_with_context; cbv zeta; rewrite bind_unfold.
    destruct (fst (Obj._callAIService _ _ _ _)) as [resp|e]; cbn [snd].
    + rewrite ObjFacts.snd_bind_silent by (intros; apply silent_ret).
      apply primary_then_backups; [apply selectBestAI_some_in|].
      destruct (negb (truthy resp) && _); [right; eauto|left; reflexivity].
    + rewrite <- (app_nil_r (snd (Obj._callAIService _ _ _ _))).
      apply primary_then_backups; [apply selectBestAI_some_in|left; reflexivity].
  - unfold Obj.summarizeDocument; rewrite ObjFacts.snd_catch_ret; cbv zeta.
    rewrite bind_unfold.
    destruct (fst (Obj.summary_analysis net w av text)) as [ea|e]; cbn [snd];
      [|rewrite summary_analysis_generation; split; constructor].
    rewrite ObjFacts.generation_requests_app, summary_analysis_generation; cbn [app].
    apply Hfin.
    assert (Hhf : (if Obj.includes (Obj.ai av) "huggingface" && Obj.USE_SPECIALIZED_MODELS
                   then catch (Obj._summarizeWithHuggingFace text st) (fun _ => ret JUndef)
                   else ret JUndef)
                  = (Ok (if Obj.includes (Obj.ai av) "huggingface" then JNull else JUndef), []))
      by (destruct (Obj.includes (Obj.ai av) "huggingface"); reflexivity).
    rewrite Hhf, bind_unfold; cbn [fst snd app].
    assert (Hf : negb (truthy (if Obj.includes (Obj.ai av) "huggingface" then JNull else JUndef)) = true)
      by (destruct (Obj.includes (Obj.ai av) "huggingface"); reflexivity).
    rewrite Hf, bind_unfold.
    destruct (fst (Obj._callAIService _ _ _ _)) as [resp|e]; cbn [snd].
    + rewrite ObjFacts.snd_bind_silent by (intros; apply silent_ret).
      apply primary_then_backups; [apply selectBestAI_some_in|].
      destruct (negb (truthy resp) && _); [right; eauto|left; reflexivity].
    + rewrite <- (app_nil_r (snd (Obj._callAIService _ _ _ _))).
      apply primary_then_backups; [apply selectBestAI_some_in|left; reflexivity].
Qed.
